(** * TarefAuto: the record/replay engine, embedded and verified

    A shallow embedding of [src/core/events.py], [src/core/recorder.py],
    [src/core/player.py] and [src/core/hotkeys.py].

    Conventions of the embedding.
    - Python objects that come out of a JSON document are dynamically typed:
      they are values of [value].  The attributes of [InputEvent] and
      [RecordingSession] hold such objects, because [from_dict] stores what
      it finds without checking it.
    - A Python [float] is an IEEE 754 binary64 number: Rocq's primitive
      [float].  A Python [int] is a [Z].
    - A Python [str] is a Rocq [string]; [lower] and [strip] are the ASCII
      ones (characters outside ASCII are left alone).
    - A raised exception is the [Raise] outcome of [result].
    - What the code gets from outside (wall clock, stop flag set by another
      thread, file system, JSON parser, pynput) is an explicit oracle.
    - A callback handed to the recorder, the player or the hotkey manager
      returns normally; a listener calls the callbacks it was given only
      between its start and its stop. *)

From Stdlib Require Import ZArith String Ascii List Floats.
From stdpp Require Import gmap strings list.
Import ListNotations.

Set Warnings "-register-all,-inexact-float".
Open Scope Z_scope.
Open Scope string_scope.

(** ** Python values, exceptions and the built-ins the code uses *)

Module Py.

Inductive value : Type :=
| VNone
| VBool (b : bool)
| VInt (z : Z)
| VFloat (f : float)
| VStr (s : string)
| VList (l : list value)
| VDict (m : gmap string value).

(** The exception classes that occur; all of them derive from
    [Exception], so [except Exception] catches each. *)
Inductive exn : Type :=
| KeyError (k : value)
| TypeError
| AttributeError
| ValueError
| OverflowError
| ZeroDivisionError
| OSError
| OtherError (name : string).

Inductive result (A : Type) : Type :=
| Ok (a : A)
| Raise (e : exn).
Arguments Ok {A} a.
Arguments Raise {A} e.

Definition bind {A B} (r : result A) (k : A -> result B) : result B :=
  match r with
  | Ok a => k a
  | Raise e => Raise e
  end.

#[global] Instance result_ret : MRet result := @Ok.
#[global] Instance result_bind : MBind result :=
  fun A B k r => bind r k.

(** A list comprehension [[f(a) for a in l]]: the first exception ends it *)
Fixpoint comprehension {A B} (f : A -> result B) (l : list A)
  : result (list B) :=
  match l with
  | [] => Ok []
  | a :: l' => b ← f a; bs ← comprehension f l'; Ok (b :: bs)
  end.

Definition is_None (v : value) : bool :=
  match v with VNone => true | _ => false end.

(** [bool(v)] *)
Definition truthy (v : value) : bool :=
  match v with
  | VNone => false
  | VBool b => b
  | VInt z => negb (Z.eqb z 0)
  | VFloat f => negb (PrimFloat.eqb f 0%float)
  | VStr s => negb (String.eqb s "")
  | VList l => match l with [] => false | _ => true end
  | VDict m => negb (bool_decide (m = ∅))
  end.

(** [data[k]] for a string literal [k] *)
Definition getitem (data : value) (k : string) : result value :=
  match data with
  | VDict m =>
      match m !! k with
      | Some v => Ok v
      | None => Raise (KeyError (VStr k))
      end
  | _ => Raise TypeError
  end.

(** [data.get(k, default)]: only a dict has the method *)
Definition get (data : value) (k : string) (dflt : value) : result value :=
  match data with
  | VDict m => Ok (default dflt (m !! k))
  | _ => Raise AttributeError
  end.

Definition chars (s : string) : list string :=
  map (fun c => String c EmptyString) (list_ascii_of_string s).

(** The items a [for] loop (or a comprehension) draws from [v] *)
Definition iter (v : value) : result (list value) :=
  match v with
  | VList l => Ok l
  | VStr s => Ok (map VStr (chars s))
  | VDict m => Ok (map (fun kv => VStr (fst kv)) (map_to_list m))
  | _ => Raise TypeError
  end.

(** Whether [v] can be a dictionary key *)
Definition is_dict (v : value) : bool :=
match v with VDict _ => true | _ => false end.

Definition is_Ok {A} (r : result A) : Prop :=
match r with Ok _ => True | Raise _ => False end.

Definition hashable (v : value) : bool :=
  match v with
  | VList _ | VDict _ => false
  | _ => true
  end.

End Py.
Export Py.


(** ** Python [str] methods, on ASCII text *)

Module Str.

Definition lower_char (c : ascii) : ascii :=
  let n := nat_of_ascii c in
  if (65 <=? n)%nat && (n <=? 90)%nat then ascii_of_nat (n + 32) else c.

(** [s.lower()] *)
Fixpoint lower (s : string) : string :=
  match s with
  | EmptyString => EmptyString
  | String c s' => String (lower_char c) (lower s')
  end.

(** The ASCII characters for which [str.isspace] holds *)
Definition is_space (c : ascii) : bool :=
  let n := nat_of_ascii c in
  ((9 <=? n)%nat && (n <=? 13)%nat)
  || ((28 <=? n)%nat && (n <=? 32)%nat).

Fixpoint mem_char (c : ascii) (set : string) : bool :=
  match set with
  | EmptyString => false
  | String c' set' => Ascii.eqb c c' || mem_char c set'
  end.

Fixpoint lstrip_by (drop : ascii -> bool) (s : string) : string :=
  match s with
  | EmptyString => EmptyString
  | String c s' => if drop c then lstrip_by drop s' else s
  end.

(** What is left of [s] after its trailing characters in [drop] *)
Fixpoint rstrip_by (drop : ascii -> bool) (s : string) : string :=
  match s with
  | EmptyString => EmptyString
  | String c s' =>
      match rstrip_by drop s' with
      | EmptyString => if drop c then EmptyString else String c EmptyString
      | rest => String c rest
      end
  end.

(** [s.strip()] *)
Definition strip (s : string) : string :=
  rstrip_by is_space (lstrip_by is_space s).

(** [s.strip(set)] *)
Definition strip_chars (set : string) (s : string) : string :=
  rstrip_by (fun c => mem_char c set) (lstrip_by (fun c => mem_char c set) s).

(** [s.split(sep)] for a one-character separator: never an empty list *)
Fixpoint split (sep : ascii) (s : string) : list string :=
  match s with
  | EmptyString => [EmptyString]
  | String c s' =>
      if Ascii.eqb c sep then EmptyString :: split sep s'
      else match split sep s' with
           | [] => [String c EmptyString]
           | part :: parts => String c part :: parts
           end
  end.

(** [s.startswith(p)] *)
Definition startswith (p s : string) : bool := String.prefix p s.

Fixpoint rev (s : string) : string :=
  match s with
  | EmptyString => EmptyString
  | String c s' => rev s' ++ String c EmptyString
  end.

(** [s.endswith(p)] *)
Definition endswith (p s : string) : bool := String.prefix (rev p) (rev s).

End Str.

(** ** [events.py]: the event vocabulary *)

Module EventType.

Inductive t : Type :=
| MOUSE_MOVE
| MOUSE_CLICK
| MOUSE_SCROLL
| KEY_PRESS
| KEY_RELEASE.

(** [member.name] *)
Definition name (ty : t) : string :=
  match ty with
  | MOUSE_MOVE => "MOUSE_MOVE"
  | MOUSE_CLICK => "MOUSE_CLICK"
  | MOUSE_SCROLL => "MOUSE_SCROLL"
  | KEY_PRESS => "KEY_PRESS"
  | KEY_RELEASE => "KEY_RELEASE"
  end.

Definition members : list t :=
  [MOUSE_MOVE; MOUSE_CLICK; MOUSE_SCROLL; KEY_PRESS; KEY_RELEASE].

(** The member called [s], if there is one *)
Definition by_name (s : string) : option t :=
  List.find (fun ty => String.eqb (name ty) s) members.

(** [EventType[v]]: a lookup of [v] in the enumeration's member map, which
    is a dictionary, so an unhashable [v] is a [TypeError] and every other
    [v] that is not a member's name a [KeyError]. *)
Definition getitem (v : value) : result t :=
  if negb (hashable v) then Raise TypeError
  else match v with
       | VStr s =>
           match by_name s with
           | Some ty => Ok ty
           | None => Raise (KeyError v)
           end
       | _ => Raise (KeyError v)
       end.

End EventType.

(** ** [events.py]: [InputEvent] *)

Module InputEvent.

Record t : Type := mk {
  timestamp : value;
  event_type : EventType.t;
  x : value;
  y : value;
  button : value;
  pressed : value;
  key : value;
  dx : value;
  dy : value
}.

(** [if v is not None: data[k] = v] *)
Definition set_unless_None (k : string) (v : value)
  (data : gmap string value) : gmap string value :=
  if is_None v then data else <[k := v]> data.

Definition to_dict (self : t) : value :=
  let data : gmap string value :=
    <["type" := VStr (EventType.name (event_type self))]>
      (<["t" := timestamp self]> ∅) in
  let data := set_unless_None "x" (x self) data in
  let data := set_unless_None "y" (y self) data in
  let data := set_unless_None "btn" (button self) data in
  let data := set_unless_None "pressed" (pressed self) data in
  let data := set_unless_None "key" (key self) data in
  let data := set_unless_None "dx" (dx self) data in
  let data := set_unless_None "dy" (dy self) data in
  VDict data.

Definition from_dict (data : value) : result t :=
  ty ← getitem data "type";
  event_type ← EventType.getitem ty;
  timestamp ← getitem data "t";
  x ← get data "x" VNone;
  y ← get data "y" VNone;
  button ← get data "btn" VNone;
  pressed ← get data "pressed" VNone;
  key ← get data "key" VNone;
  dx ← get data "dx" VNone;
  dy ← get data "dy" VNone;
  Ok (mk timestamp event_type x y button pressed key dx dy).

(** An event dictionary that has the two required entries: a timestamp
    under ["t"] and the name of one of the five kinds under ["type"]. *)
Definition required_fields (data : value) : Prop :=
  exists m, data = VDict m /\ is_Some (m !! "t")
    /\ exists ty, m !! "type" = Some (VStr (EventType.name ty)).

End InputEvent.

(** ** [events.py]: [RecordingSession] *)

(** What [load] gets from outside: the text of a file ([open] and read)
    and the [json] module's parser. *)
Record IO : Type := {
  read_text : string -> result string;
  json_load : string -> result value
}.

Module RecordingSession.

Record t : Type := mk {
  events : list InputEvent.t;
  created_at : value;
  record_mouse : value;
  record_keyboard : value;
  version : value;
  name : value;
  description : value
}.

Definition default_version : string := "1.0.0".
Definition default_name : string := "Gravação sem nome".

(** [RecordingSession(record_mouse=.., record_keyboard=..)]; [now] is what
    [datetime.now().isoformat()] returns at the call. *)
Definition new (now : string) (record_mouse record_keyboard : bool) : t :=
  mk [] (VStr now) (VBool record_mouse) (VBool record_keyboard)
     (VStr default_version) (VStr default_name) (VStr "").

Definition add_event (self : t) (event : InputEvent.t) : t :=
  mk (events self ++ [event]) (created_at self) (record_mouse self)
     (record_keyboard self) (version self) (name self) (description self).

(** [events[-1].timestamp], or [0.0] for no events *)
Definition get_duration (self : t) : value :=
  match events self with
  | [] => VFloat 0
  | e :: es => InputEvent.timestamp (List.last es e)
  end.

Definition to_dict (self : t) : value :=
  VDict
    (<["version" := version self]>
    (<["name" := name self]>
    (<["description" := description self]>
    (<["created_at" := created_at self]>
    (<["settings" :=
         VDict (<["record_mouse" := record_mouse self]>
               (<["record_keyboard" := record_keyboard self]> ∅))]>
    (<["events" := VList (map InputEvent.to_dict (events self))]> ∅)))))).

(** [now] is the default of [created_at], which Python evaluates whether
    or not the key is there. *)
Definition from_dict (now : string) (data : value) : result t :=
  settings ← get data "settings" (VDict ∅);
  raw ← get data "events" (VList []);
  items ← iter raw;
  events ← comprehension InputEvent.from_dict items;
  version ← get data "version" (VStr default_version);
  name ← get data "name" (VStr default_name);
  description ← get data "description" (VStr "");
  created_at ← get data "created_at" (VStr now);
  record_mouse ← get settings "record_mouse" (VBool true);
  record_keyboard ← get settings "record_keyboard" (VBool true);
  Ok (mk events created_at record_mouse record_keyboard
         version name description).

(** A session dictionary whose ["settings"], when present, is a dictionary
    and whose ["events"], when present, is a list of dictionaries. *)
Definition well_shaped (m : gmap string value) : Prop :=
  match m !! "settings" with
  | Some v => is_dict v = true
  | None => True
  end
  /\ match m !! "events" with
     | Some (VList l) => Forall (fun v => is_dict v = true) l
     | Some _ => False
     | None => True
     end.

(** Its settings: the dictionary under ["settings"], empty by default *)
Definition settings_of (m : gmap string value) : gmap string value :=
  match m !! "settings" with
  | Some (VDict settings) => settings
  | _ => ∅
  end.

(** The event dictionaries of such a session dictionary *)
Definition event_dicts (m : gmap string value) : list value :=
  match m !! "events" with
  | Some (VList l) => l
  | _ => []
  end.

(** [try: body except Exception: return fallback]; every class of [exn]
    derives from [Exception]. *)
Definition try_except {A} (body : result A) (fallback : A) : result A :=
  match body with
  | Ok a => Ok a
  | Raise _ => Ok fallback
  end.

Definition load (io : IO) (now : string) (filepath : string)
  : result (option t) :=
  try_except
    (text ← read_text io filepath;
     data ← json_load io text;
     session ← from_dict now data;
     Ok (Some session))
    None.

End RecordingSession.

(** ** What pynput hands to the callbacks *)

Module Pynput.

(** A key object: a [KeyCode], with its [char] (or [None]), or a member of
    the [Key] enumeration, with its [name].  [repr] is what [str(key)]
    returns.  A [KeyCode] has no attribute [name] and a [Key] member no
    attribute [char]. *)
Inductive key : Type :=
| KeyCode (char : option string) (repr : string)
| Key (name : string) (repr : string).

(** A member of [mouse.Button] as a listener reports it *)
Record button : Type := {
  button_name : option string;
  button_repr : string
}.

End Pynput.

(** A Python callable registered as a callback, known by a handle *)
Definition callback : Type := nat.

(** ** [recorder.py] *)

Module Recorder.

Record t : Type := mk {
  record_mouse : bool;
  record_keyboard : bool;
  is_recording : bool;
  session : RecordingSession.t;
  _start_time : float;
  _mouse_listener : bool;        (* a started listener, or [None] *)
  _keyboard_listener : bool;
  _on_event_callback : option callback;
  notified : list (callback * InputEvent.t)
    (* the calls of the per-event callback so far, oldest first *)
}.

(** [Recorder(record_mouse, record_keyboard, on_event_callback)]; [stamp]
    is [datetime.now().isoformat()] at the call. *)
Definition init (stamp : string) (record_mouse record_keyboard : bool)
  (on_event_callback : option callback) : t :=
  mk record_mouse record_keyboard false
     (RecordingSession.new stamp record_mouse record_keyboard)
     0%float false false on_event_callback [].

(** [now] is what [time.time()] returns at the call. *)
Definition _get_relative_time (now : float) (self : t) : float :=
  (now - _start_time self)%float.

Definition _add_event (self : t) (event : InputEvent.t) : t :=
  let session' := RecordingSession.add_event (session self) event in
  let notified' :=
    match _on_event_callback self with
    | Some cb => (notified self ++ [(cb, event)])%list
    | None => notified self
    end in
  mk (record_mouse self) (record_keyboard self) (is_recording self)
     session' (_start_time self) (_mouse_listener self)
     (_keyboard_listener self) (_on_event_callback self) notified'.

(** The coordinates and deltas are Python [int]s, on which [int(x)] is the
    identity. *)
Definition _on_mouse_move (now : float) (x y : Z) (self : t) : t :=
  if negb (is_recording self) || negb (record_mouse self) then self
  else
    _add_event self
      (InputEvent.mk (VFloat (_get_relative_time now self))
         EventType.MOUSE_MOVE (VInt x) (VInt y) VNone VNone VNone VNone VNone).

Definition _on_mouse_click (now : float) (x y : Z) (button : Pynput.button)
  (pressed : bool) (self : t) : t :=
  if negb (is_recording self) || negb (record_mouse self) then self
  else
    let button_name :=
      match Pynput.button_name button with
      | Some name => name
      | None => Pynput.button_repr button
      end in
    _add_event self
      (InputEvent.mk (VFloat (_get_relative_time now self))
         EventType.MOUSE_CLICK (VInt x) (VInt y) (VStr button_name)
         (VBool pressed) VNone VNone VNone).

Definition _on_mouse_scroll (now : float) (x y dx dy : Z) (self : t) : t :=
  if negb (is_recording self) || negb (record_mouse self) then self
  else
    _add_event self
      (InputEvent.mk (VFloat (_get_relative_time now self))
         EventType.MOUSE_SCROLL (VInt x) (VInt y) VNone VNone VNone
         (VInt dx) (VInt dy)).

Definition _get_key_string (key : Pynput.key) : string :=
  match key with
  | Pynput.KeyCode (Some char) _ => char
  | Pynput.KeyCode None repr => repr
  | Pynput.Key name _ => name
  end.

Definition _on_key_press (now : float) (key : Pynput.key) (self : t) : t :=
  if negb (is_recording self) || negb (record_keyboard self) then self
  else
    _add_event self
      (InputEvent.mk (VFloat (_get_relative_time now self))
         EventType.KEY_PRESS VNone VNone VNone (VBool true)
         (VStr (_get_key_string key)) VNone VNone).

Definition _on_key_release (now : float) (key : Pynput.key) (self : t) : t :=
  if negb (is_recording self) || negb (record_keyboard self) then self
  else
    _add_event self
      (InputEvent.mk (VFloat (_get_relative_time now self))
         EventType.KEY_RELEASE VNone VNone VNone (VBool false)
         (VStr (_get_key_string key)) VNone VNone).

Definition start (stamp : string) (now : float) (self : t) : t :=
  if is_recording self then self
  else
    mk (record_mouse self) (record_keyboard self) true
       (RecordingSession.new stamp (record_mouse self) (record_keyboard self))
       now
       (if record_mouse self then true else _mouse_listener self)
       (if record_keyboard self then true else _keyboard_listener self)
       (_on_event_callback self) (notified self).

Definition stop (self : t) : RecordingSession.t * t :=
  if negb (is_recording self) then (session self, self)
  else
    (session self,
     mk (record_mouse self) (record_keyboard self) false (session self)
        (_start_time self) false false
        (_on_event_callback self) (notified self)).

Definition update_settings (record_mouse' record_keyboard' : bool) (self : t)
  : t :=
  mk record_mouse' record_keyboard' (is_recording self) (session self)
     (_start_time self) (_mouse_listener self) (_keyboard_listener self)
     (_on_event_callback self) (notified self).

Definition get_event_count (self : t) : nat :=
  length (RecordingSession.events (session self)).

End Recorder.

(** ** [hotkeys.py] *)

Module HotkeyManager.

Record t : Type := mk {
  _hotkeys : list (string * callback);
    (* the dictionary combination -> callback, in insertion order *)
  _pressed_keys : gset string;
  _listener : bool;              (* a started listener, or [None] *)
  _enabled : bool;
  _processing_enabled : bool;
  started : list (string * callback)
    (* the threads started so far, oldest first: the callback each one
       runs, with the combination that made [_check_hotkeys] start it *)
}.

Definition init : t := mk [] ∅ false false true [].

Definition _normalize_key (key : Pynput.key) : string :=
  match key with
  | Pynput.KeyCode (Some char) _ => Str.lower char
  | Pynput.KeyCode None repr => Str.lower repr
  | Pynput.Key name _ =>
      let name := Str.lower name in
      if Str.startswith "ctrl" name then "<ctrl>"
      else if Str.startswith "shift" name then "<shift>"
      else if Str.startswith "alt" name then "<alt>"
      else if Str.startswith "cmd" name || Str.startswith "super" name
           then "<cmd>"
      else if String.eqb name "esc" || String.eqb name "escape"
           then "<escape>"
      else "<" ++ name ++ ">"
  end.

Definition special_keys : list string :=
  [ "ctrl"; "shift"; "alt"; "cmd"; "super";
    "f1"; "f2"; "f3"; "f4"; "f5"; "f6"; "f7"; "f8"; "f9"; "f10"; "f11"; "f12";
    "escape"; "esc"; "enter"; "return"; "space"; "tab";
    "backspace"; "delete"; "insert"; "home"; "end"; "page_up"; "page_down";
    "up"; "down"; "left"; "right"; "caps_lock"; "num_lock"; "scroll_lock";
    "print_screen"; "pause"; "menu" ].

(** One turn of the loop over [parts] *)
Definition parse_part (keys : gset string) (part : string) : gset string :=
  let part := Str.strip part in
  if String.eqb part "" then keys
  else
    let clean_part := Str.strip_chars "<>" part in
    if existsb (String.eqb clean_part) special_keys then
      let clean_part :=
        if String.eqb clean_part "esc" then "escape" else clean_part in
      keys ∪ {["<" ++ clean_part ++ ">"]}
    else if Str.startswith "<" part && Str.endswith ">" part then
      keys ∪ {[part]}
    else
      keys ∪ {[part]}.

Definition _parse_hotkey (hotkey_str : string) : gset string :=
  let parts := Str.split "+" (Str.lower hotkey_str) in
  fold_left parse_part parts ∅.

(** The test of line 238: [required_keys and
    required_keys.issubset(current_keys)] *)
Definition fires (current_keys : gset string) (hotkey_str : string) : bool :=
  let required_keys := _parse_hotkey hotkey_str in
  negb (bool_decide (required_keys = ∅))
  && bool_decide (required_keys ⊆ current_keys).

(** The loop over [self._hotkeys.items()], left at the first combination
    that fires. *)
Fixpoint scan (current_keys : gset string) (items : list (string * callback))
  (self : t) : t :=
  match items with
  | [] => self
  | (hotkey_str, cb) :: rest =>
      if fires current_keys hotkey_str then
        mk (_hotkeys self) ∅ (_listener self) (_enabled self)
           (_processing_enabled self)
           (started self ++ [(hotkey_str, cb)])%list
      else scan current_keys rest self
  end.

Definition _check_hotkeys (self : t) : t :=
  if negb (_processing_enabled self) then self
  else scan (_pressed_keys self) (_hotkeys self) self.

Definition _on_key_press (key : Pynput.key) (self : t) : t :=
  if negb (_enabled self) then self
  else
    let key_str := _normalize_key key in
    _check_hotkeys
      (mk (_hotkeys self) (_pressed_keys self ∪ {[key_str]})
          (_listener self) (_enabled self) (_processing_enabled self)
          (started self)).

Definition _on_key_release (key : Pynput.key) (self : t) : t :=
  if negb (_enabled self) then self
  else
    let key_str := _normalize_key key in
    mk (_hotkeys self) (_pressed_keys self ∖ {[key_str]})
       (_listener self) (_enabled self) (_processing_enabled self)
       (started self).



Definition unregister_hotkey (hotkey : string) (self : t) : bool * t :=
  let normalized := Str.strip (Str.lower hotkey) in
  if existsb (fun item => String.eqb (fst item) normalized) (_hotkeys self)
  then
    (true,
     mk (filter (fun item => fst item ≠ normalized) (_hotkeys self))
        (_pressed_keys self) (_listener self) (_enabled self)
        (_processing_enabled self) (started self))
  else (false, self).

(** The listener is taken to start without an exception. *)
Definition start (self : t) : bool * t :=
  if _enabled self then (false, self)
  else
    (true,
     mk (_hotkeys self) (_pressed_keys self) true true
        (_processing_enabled self) (started self)).

Definition stop (self : t) : t :=
  if negb (_enabled self) then self
  else
    mk (_hotkeys self) ∅ false false (_processing_enabled self)
       (started self).

Definition set_enabled (enabled : bool) (self : t) : t :=
  mk (_hotkeys self) (_pressed_keys self) (_listener self) (_enabled self)
     enabled (started self).


Definition clear_hotkeys (self : t) : t :=
  mk [] (_pressed_keys self) (_listener self) (_enabled self)
     (_processing_enabled self) (started self).

End HotkeyManager.

(** ** Python numbers: [int] and [float] mixed *)

Module Num.

#[local] Open Scope Z_scope.

Inductive number : Type :=
| NInt (z : Z)
| NFloat (f : float).

(** The numeric reading of an object in arithmetic: [bool] is a subclass
    of [int]; anything else that is not a number is a [TypeError]. *)
Definition as_number (v : value) : result number :=
  match v with
  | VInt z => Ok (NInt z)
  | VBool b => Ok (NInt (if b then 1 else 0))
  | VFloat f => Ok (NFloat f)
  | _ => Raise TypeError
  end.

(** [float(z)]: the nearest binary64, ties to even; too large an integer
    is an [OverflowError]. *)
Definition float_of_Z (z : Z) : result float :=
  let f := SF2Prim (SpecFloat.binary_normalize prec emax z 0 false) in
  if PrimFloat.is_infinity f then Raise OverflowError else Ok f.

Definition to_float (a : number) : result float :=
  match a with
  | NInt z => float_of_Z z
  | NFloat f => Ok f
  end.

(** [a - b] *)
Definition sub (a b : number) : result number :=
  match a, b with
  | NInt x, NInt y => Ok (NInt (x - y))
  | _, _ =>
      x ← to_float a; y ← to_float b; Ok (NFloat (x - y)%float)
  end.

(** [a / s] for a float [s] *)
Definition truediv (a : number) (s : float) : result float :=
  x ← to_float a;
  if PrimFloat.eqb s 0%float then Raise ZeroDivisionError
  else Ok (x / s)%float.

(** The exact comparison of a float with an integer ([None]: unordered) *)
Definition float_cmp_Z (x : float) (z : Z) : option comparison :=
  match Prim2SF x with
  | S754_nan => None
  | S754_infinity s => Some (if s then Lt else Gt)
  | S754_zero _ => Some (0 ?= z)
  | S754_finite s m e =>
      let mz := if s then Z.neg m else Z.pos m in
      Some (if 0 <=? e then (mz * 2 ^ e ?= z) else (mz ?= z * 2 ^ (- e)))
  end.

(** [a < b]; Python compares an [int] with a [float] exactly. *)
Definition lt (a b : number) : bool :=
  match a, b with
  | NInt x, NInt y => x <? y
  | NFloat x, NFloat y => PrimFloat.ltb x y
  | NFloat x, NInt y =>
      match float_cmp_Z x y with Some Lt => true | _ => false end
  | NInt x, NFloat y =>
      match float_cmp_Z y x with Some Gt => true | _ => false end
  end.

(** [a >= b] *)
Definition ge (a b : number) : bool :=
  match a, b with
  | NInt x, NInt y => y <=? x
  | NFloat x, NFloat y => PrimFloat.leb y x
  | NFloat x, NInt y =>
      match float_cmp_Z x y with Some (Gt | Eq) => true | _ => false end
  | NInt x, NFloat y =>
      match float_cmp_Z y x with Some (Lt | Eq) => true | _ => false end
  end.

(** [a > 0] *)
Definition gt0 (a : number) : bool := lt (NInt 0) a.

(** [int(a)]: truncation toward zero *)
Definition int (a : number) : result Z :=
  match a with
  | NInt z => Ok z
  | NFloat f =>
      match Prim2SF f with
      | S754_nan => Raise ValueError
      | S754_infinity _ => Raise OverflowError
      | S754_zero _ => Ok 0
      | S754_finite s m e =>
          let mag :=
            if 0 <=? e then Z.pos m * 2 ^ e else Z.pos m / 2 ^ (- e) in
          Ok (if s then - mag else mag)
      end
  end.

(** [max(0, a)] and [min(0.01, a)]: the first argument wins a tie, and an
    unordered comparison *)
Definition max0 (a : number) : number := if gt0 a then a else NInt 0.

Definition min001 (a : number) : number :=
  if lt a (NFloat 0.01) then a else NFloat 0.01.

End Num.
Export Num.

(** ** [player.py] *)

Module Player.

Inductive LoopMode : Type := SINGLE | COUNT | DURATION | INFINITE.

(** The members of [pynput.mouse.Button] the player presses *)
Inductive Button : Type := left | right | middle.

(** What [_get_keyboard_key] returns: [Key[name]], a member of pynput's
    [Key] enumeration, or [KeyCode.from_char(char)]. *)
Inductive key_object : Type :=
| Key (name : string)
| KeyCode_from_char (char : string).

(** The calls of the injection capability, pynput's two controllers *)
Inductive call : Type :=
| set_position (x y : value)        (* [_mouse_controller.position = (x, y)] *)
| mouse_press (b : Button)
| mouse_release (b : Button)
| mouse_scroll (dx dy : value)
| keyboard_press (k : key_object)
| keyboard_release (k : key_object).

(** A started thread whose target is [_playback_loop] *)
Record thread : Type := Thread { thread_name : string; daemon : bool }.

Record t : Type := mk {
  is_playing : bool;
  loop_mode : LoopMode;
  loop_value : number;
  speed_multiplier : float;
  _session : option RecordingSession.t;
  _playback_thread : option thread;
  _stop_flag : bool;
  _on_progress_callback : option callback;
  _on_complete_callback : option callback;
  _loops_completed : Z;
  _events_played : Z;
  _current_loop : Z;
  _start_time : float;
  threads_started : nat   (* how many replay threads were started so far *)
}.

Definition init (on_progress_callback on_complete_callback : option callback)
  : t :=
  mk false SINGLE (NInt 1) 1%float None None false
     on_progress_callback on_complete_callback 0 0 0 0%float 0%nat.

Definition set_loop_mode (mode : LoopMode) (value : number) (self : t) : t :=
  mk (is_playing self) mode value (speed_multiplier self) (_session self)
     (_playback_thread self) (_stop_flag self) (_on_progress_callback self)
     (_on_complete_callback self) (_loops_completed self)
     (_events_played self) (_current_loop self) (_start_time self)
     (threads_started self).

(** [max(0.1, min(10.0, multiplier))] for a float [multiplier] *)
Definition set_speed (multiplier : float) (self : t) : t :=
  let m := if PrimFloat.ltb multiplier 10 then multiplier else 10%float in
  let speed := if PrimFloat.ltb 0.1 m then m else 0.1%float in
  mk (is_playing self) (loop_mode self) (loop_value self) speed
     (_session self) (_playback_thread self) (_stop_flag self)
     (_on_progress_callback self) (_on_complete_callback self)
     (_loops_completed self) (_events_played self) (_current_loop self)
     (_start_time self) (threads_started self).

Definition _get_mouse_button (button_name : value) : result Button :=
  match button_name with
  | VStr name =>
      let name := Str.lower name in
      Ok (if String.eqb name "left" then left
          else if String.eqb name "right" then right
          else if String.eqb name "middle" then middle
          else left)
  | _ => Raise AttributeError
  end.

(** [Key_member name]: whether pynput's [Key] enumeration has a member
    called [name].  A [KeyError] or [AttributeError] of the two lookups is
    caught; on what is not a string, [Key[key_str]] is a [TypeError] when
    it cannot be hashed and [len(key_str)] is a [TypeError] otherwise. *)
Definition _get_keyboard_key (Key_member : string -> bool) (key_str : value)
  : result key_object :=
  match key_str with
  | VStr s =>
      if Key_member s then Ok (Key s)
      else if Key_member (Str.lower s) then Ok (Key (Str.lower s))
      else if Nat.eqb (String.length s) 1 then Ok (KeyCode_from_char s)
      else match s with
           | EmptyString => Ok (Key "space")
           | String c _ => Ok (KeyCode_from_char (String c EmptyString))
           end
  | _ => Raise TypeError
  end.

(** [play(session)]; [None] stands for a session that is [None]. *)
Definition play (session : option RecordingSession.t) (self : t) : bool * t :=
  if is_playing self then (false, self)
  else
    match session with
    | None => (false, self)
    | Some s =>
        match RecordingSession.events s with
        | [] => (false, self)
        | _ :: _ =>
            (true,
             mk true (loop_mode self) (loop_value self)
                (speed_multiplier self) (Some s)
                (Some (Thread "TarefAuto-Playback" true)) false
                (_on_progress_callback self) (_on_complete_callback self)
                (_loops_completed self) (_events_played self)
                (_current_loop self) (_start_time self)
                (S (threads_started self)))
        end
    end.

(** [stop()], seen from the caller: the flag is set and, after the wait
    for the thread, the state is idle. *)
Definition stop (self : t) : t :=
  if negb (is_playing self) then self
  else
    mk false (loop_mode self) (loop_value self) (speed_multiplier self)
       (_session self) (_playback_thread self) true
       (_on_progress_callback self) (_on_complete_callback self)
       (_loops_completed self) (_events_played self) (_current_loop self)
       (_start_time self) (threads_started self).

(** *** The replay thread

    [_playback_loop] runs on a thread of its own.  What it reads from
    outside is given by a [world]: the successive values of [time.time()],
    the successive values of [_stop_flag.is_set()] (other threads set the
    flag), whether a call of a pynput controller raises, and the names of
    pynput's [Key] enumeration.  What it does is recorded in a trace.
    [print] is left out. *)

Record world : Type := {
  time_at : nat -> float;
  stop_at : nat -> bool;
  controller : call -> option exn;
  Key_member : string -> bool
}.

Inductive action : Type :=
| Execute (event : InputEvent.t)   (* the call [self._execute_event(event)] *)
| Inject (c : call)                (* a call of a pynput controller *)
| Wait (delay : number)            (* the wait for [delay > 0] is entered *)
| Sleep (seconds : number)         (* [time.sleep(seconds)] *)
| Progress (current_loop total_loops event_index : Z)
| Complete.                        (* the completion callback is called *)

(** The state the thread works on: the player object, how often the clock
    and the flag were read, and the trace, oldest action first. *)
Record run : Type := Run {
  self : t;
  ticks : nat;
  polls : nat;
  trace : list action
}.

(** How a piece of the thread's code ends: normally, with an exception
    nobody caught (the thread dies), or not within the fuel given. *)
Inductive outcome (A : Type) : Type :=
| Done (a : A) (s : run)
| Crashed (e : exn) (s : run)
| OutOfFuel.
Arguments Done {A} a s.
Arguments Crashed {A} e s.
Arguments OutOfFuel {A}.

Definition M (A : Type) : Type := run -> outcome A.

Definition ret {A} (a : A) : M A := fun s => Done a s.

Definition bindM {A B} (m : M A) (k : A -> M B) : M B :=
  fun s =>
    match m s with
    | Done a s' => k a s'
    | Crashed e s' => Crashed e s'
    | OutOfFuel => OutOfFuel
    end.

#[global] Instance M_ret : MRet M := @ret.
#[global] Instance M_bind : MBind M := fun A B k m => bindM m k.

Definition out_of_fuel {A} : M A := fun _ => OutOfFuel.

(** A step that may raise *)
Definition lift {A} (r : result A) : M A :=
  fun s => match r with Ok a => Done a s | Raise e => Crashed e s end.

(** [try: body except Exception: pass] *)
Definition try_pass (body : M unit) : M unit :=
  fun s =>
    match body s with
    | Crashed _ s' => Done tt s'
    | o => o
    end.

Definition emit (a : action) : M unit :=
  fun s => Done tt (Run (self s) (ticks s) (polls s) (trace s ++ [a])%list).

(** [time.time()] *)
Definition time (w : world) : M float :=
  fun s =>
    Done (time_at w (ticks s)) (Run (self s) (S (ticks s)) (polls s) (trace s)).

(** [self._stop_flag.is_set()] *)
Definition is_set (w : world) : M bool :=
  fun s =>
    Done (stop_at w (polls s)) (Run (self s) (ticks s) (S (polls s)) (trace s)).

Definition read {A} (field : t -> A) : M A := fun s => Done (field s.(self)) s.

Definition update (f : t -> t) : M unit :=
  fun s => Done tt (Run (f (self s)) (ticks s) (polls s) (trace s)).

Definition set_is_playing (b : bool) (p : t) : t :=
  mk b (loop_mode p) (loop_value p) (speed_multiplier p) (_session p)
     (_playback_thread p) (_stop_flag p) (_on_progress_callback p)
     (_on_complete_callback p) (_loops_completed p) (_events_played p)
     (_current_loop p) (_start_time p) (threads_started p).

Definition set_loops_completed (n : Z) (p : t) : t :=
  mk (is_playing p) (loop_mode p) (loop_value p) (speed_multiplier p)
     (_session p) (_playback_thread p) (_stop_flag p)
     (_on_progress_callback p) (_on_complete_callback p) n
     (_events_played p) (_current_loop p) (_start_time p)
     (threads_started p).

Definition set_events_played (n : Z) (p : t) : t :=
  mk (is_playing p) (loop_mode p) (loop_value p) (speed_multiplier p)
     (_session p) (_playback_thread p) (_stop_flag p)
     (_on_progress_callback p) (_on_complete_callback p)
     (_loops_completed p) n (_current_loop p) (_start_time p)
     (threads_started p).

Definition set_current_loop (n : Z) (p : t) : t :=
  mk (is_playing p) (loop_mode p) (loop_value p) (speed_multiplier p)
     (_session p) (_playback_thread p) (_stop_flag p)
     (_on_progress_callback p) (_on_complete_callback p)
     (_loops_completed p) (_events_played p) n (_start_time p)
     (threads_started p).

Definition set_start_time (x : float) (p : t) : t :=
  mk (is_playing p) (loop_mode p) (loop_value p) (speed_multiplier p)
     (_session p) (_playback_thread p) (_stop_flag p)
     (_on_progress_callback p) (_on_complete_callback p)
     (_loops_completed p) (_events_played p) (_current_loop p) x
     (threads_started p).

(** A call of a controller: it is made, and it may raise. *)
Definition inject (w : world) (c : call) : M unit :=
  _ ← emit (Inject c);
  match controller w c with
  | Some e => lift (Raise e)
  | None => ret tt
  end.

Definition _execute_event (w : world) (event : InputEvent.t) : M unit :=
  _ ← emit (Execute event);
  match InputEvent.event_type event with
  | EventType.MOUSE_MOVE =>
      inject w (set_position (InputEvent.x event) (InputEvent.y event))
  | EventType.MOUSE_CLICK =>
      button ← lift (_get_mouse_button (InputEvent.button event));
      _ ← inject w (set_position (InputEvent.x event) (InputEvent.y event));
      if truthy (InputEvent.pressed event)
      then inject w (mouse_press button)
      else inject w (mouse_release button)
  | EventType.MOUSE_SCROLL =>
      _ ← inject w (set_position (InputEvent.x event) (InputEvent.y event));
      inject w (mouse_scroll (InputEvent.dx event) (InputEvent.dy event))
  | EventType.KEY_PRESS =>
      key ← lift (_get_keyboard_key (Key_member w) (InputEvent.key event));
      inject w (keyboard_press key)
  | EventType.KEY_RELEASE =>
      key ← lift (_get_keyboard_key (Key_member w) (InputEvent.key event));
      inject w (keyboard_release key)
  end.

(** Lines 527 to 532: the delay before an event, from its timestamp and
    the previous one *)
Definition delay_before (speed : float) (timestamp prev_timestamp : number)
  : result number :=
  delay ← Num.sub timestamp prev_timestamp;
  if PrimFloat.ltb 0 speed
  then scaled ← Num.truediv delay speed; Ok (NFloat scaled)
  else Ok delay.

(** Lines 538 to 544: the wait, in slices of at most 10 ms, left early
    when the flag is seen set *)
Fixpoint busy_wait (w : world) (fuel : nat) (sleep_start : float)
  (delay : number) : M unit :=
  match fuel with
  | O => out_of_fuel
  | S fuel' =>
      now ← time w;
      if Num.lt (NFloat (now - sleep_start)) delay then
        stop ← is_set w;
        if (stop : bool) then ret tt
        else
          now' ← time w;
          remaining ← lift (Num.sub delay (NFloat (now' - sleep_start)));
          _ ← emit (Sleep (Num.min001 (Num.max0 remaining)));
          busy_wait w fuel' sleep_start delay
      else ret tt
  end.

(** The check of the [DURATION] mode: [elapsed >= self.loop_value] *)
Definition duration_over (w : world) (start_time : float) : M bool :=
  mode ← read loop_mode;
  match (mode : LoopMode) with
  | DURATION =>
      now ← time w;
      value ← read loop_value;
      ret (Num.ge (NFloat (now - start_time)) value)
  | _ => ret false
  end.

Inductive control : Type := Continue | Break.

(** One turn of the [for] loop, for the event of index [i]; it returns the
    new [prev_timestamp]. *)
Definition play_event (w : world) (fuel : nat) (current_loop : Z)
  (max_loops : option Z) (start_time : float) (i : Z)
  (event : InputEvent.t) (prev_timestamp : number) : M (control * number) :=
  stop ← is_set w;
  if (stop : bool) then ret (Break, prev_timestamp) else
  over ← duration_over w start_time;
  if (over : bool) then ret (Break, prev_timestamp) else
  timestamp ← lift (Num.as_number (InputEvent.timestamp event));
  speed ← read speed_multiplier;
  delay ← lift (delay_before speed timestamp prev_timestamp);
  interrupted ←
    (if Num.gt0 delay then
       _ ← emit (Wait delay);
       sleep_start ← time w;
       _ ← busy_wait w fuel sleep_start delay;
       is_set w
     else ret false);
  if (interrupted : bool) then ret (Break, prev_timestamp) else
  _ ← try_pass
        (_ ← _execute_event w event;
         played ← read _events_played;
         update (set_events_played (played + 1)));
  progress ← read _on_progress_callback;
  _ ← match (progress : option callback) with
      | Some _ =>
          let total_loops := match max_loops with Some n => n | None => -1 end in
          emit (Progress (current_loop + 1) total_loops (i + 1))
      | None => ret tt
      end;
  ret (Continue, timestamp).

(** The [for] loop over the events from index [i] on *)
Fixpoint for_events (w : world) (fuel : nat) (current_loop : Z)
  (max_loops : option Z) (start_time : float) (i : Z)
  (events : list InputEvent.t) (prev_timestamp : number) : M unit :=
  match events with
  | [] => ret tt
  | event :: rest =>
      r ← play_event w fuel current_loop max_loops start_time i event
            prev_timestamp;
      match (r : control * number) with
      | (Break, _) => ret tt
      | (Continue, prev_timestamp') =>
          for_events w fuel current_loop max_loops start_time (i + 1) rest
            prev_timestamp'
      end
  end.

(** [current_loop < max_loops], where [None] is [float('inf')] *)
Definition below (current_loop : Z) (max_loops : option Z) : bool :=
  match max_loops with
  | Some n => Z.ltb current_loop n
  | None => true
  end.

(** The [while] loop *)
Fixpoint while_loops (w : world) (fuel : nat) (max_loops : option Z)
  (start_time : float) (events : list InputEvent.t) (current_loop : Z)
  : M unit :=
  match fuel with
  | O => out_of_fuel
  | S fuel' =>
      if below current_loop max_loops then
        _ ← update (set_current_loop (current_loop + 1));
        stop ← is_set w;
        if (stop : bool) then ret tt else
        over ← duration_over w start_time;
        if (over : bool) then ret tt else
        _ ← for_events w fuel' current_loop max_loops start_time 0 events
              (NFloat 0);
        stop ← is_set w;
        if negb (stop : bool) then
          _ ← update (set_loops_completed (current_loop + 1));
          while_loops w fuel' max_loops start_time events (current_loop + 1)
        else
          while_loops w fuel' max_loops start_time events current_loop
      else ret tt
  end.

(** The end of [_playback_loop]: idle, and the completion callback *)
Definition finish : M unit :=
  _ ← update (set_is_playing false);
  complete ← read _on_complete_callback;
  match (complete : option callback) with
  | Some _ => emit Complete
  | None => ret tt
  end.

Definition _playback_loop (w : world) (fuel : nat) : M unit :=
  session ← read _session;
  match (session : option RecordingSession.t) with
  | None => finish
  | Some session =>
      match RecordingSession.events session with
      | [] => finish
      | events =>
          mode ← read loop_mode;
          max_loops ←
            match (mode : LoopMode) with
            | SINGLE => ret (Some 1)
            | COUNT =>
                value ← read loop_value;
                n ← lift (Num.int value);
                ret (Some n)
            | DURATION | INFINITE => ret None
            end;
          start_time ← time w;
          _ ← update (set_start_time start_time);
          _ ← update (set_loops_completed 0);
          _ ← update (set_events_played 0);
          _ ← update (set_current_loop 1);
          _ ← while_loops w fuel max_loops start_time events 0;
          finish
      end
  end.

(** The replay thread of a player, from its start *)
Definition replay (w : world) (fuel : nat) (p : t) : outcome unit :=
  _playback_loop w fuel (Run p 0 0 []).

(** What a trace says was executed, and what it says about waits *)
Definition executed (tr : list action) : list InputEvent.t :=
  omap (fun a => match a with Execute e => Some e | _ => None end) tr.

Definition schedule (tr : list action) : list action :=
  List.filter
    (fun a => match a with Execute _ | Wait _ => true | _ => false end) tr.

(** What the replay thread only reads of the player: the loop mode and
    its value, the speed, and the two callbacks *)
Definition settings (p : t)
  : LoopMode * number * float * option callback * option callback :=
  (loop_mode p, loop_value p, speed_multiplier p, _on_progress_callback p,
   _on_complete_callback p).

(** The clock gets past a deadline: whenever a wait starts, from some
    reading of the clock on the time since the start is no longer below
    [delay]. *)
Definition clock_passes (w : world) (delay : number) : Prop :=
  forall k, exists n, forall i, (n <= i)%nat ->
    Num.lt (NFloat (time_at w i - time_at w k)) delay = false.

(** The waits and executions of one pass over events with float
    timestamps, at a given speed: before each event the delay since the
    previous timestamp ([prev] for the first event) divided by the speed,
    waited for only when it is positive. *)
Fixpoint pass_schedule (speed : float) (prev : float)
  (events : list InputEvent.t) : list action :=
  match events with
  | [] => []
  | event :: rest =>
      match InputEvent.timestamp event with
      | VFloat timestamp =>
          let delay := NFloat ((timestamp - prev) / speed) in
          ((if Num.gt0 delay then [Wait delay] else [])
           ++ Execute event :: pass_schedule speed timestamp rest)%list
      | _ => []
      end
  end.

(** The calls of the progress callback a trace holds: the pass, the
    number of passes ([-1] for no bound) and the index of the event, the
    first pass and the first event being 1 *)
Definition reports (tr : list action) : list (Z * Z * Z) :=
  omap (fun a => match a with
                 | Progress current_loop total_loops event_index =>
                     Some (current_loop, total_loops, event_index)
                 | _ => None
                 end) tr.

(** The timestamp of an event recorded by [Recorder], or loaded from a
    file that [save] wrote: a float *)
Definition float_timestamp (event : InputEvent.t) : bool :=
  match InputEvent.timestamp event with
  | VFloat _ => true
  | _ => false
  end.

End Player.

(** ** The listeners of a recording *)

Module Listener.

(** What the pynput listeners report *)
Inductive input : Type :=
| move (x y : Z)
| click (x y : Z) (button : Pynput.button) (pressed : bool)
| scroll (x y dx dy : Z)
| press (key : Pynput.key)
| release (key : Pynput.key).

Definition is_pointer (i : input) : bool :=
  match i with
  | move _ _ | click _ _ _ _ | scroll _ _ _ _ => true
  | press _ | release _ => false
  end.

(** The kind of event the callback of an input records *)
Definition kind (i : input) : EventType.t :=
  match i with
  | move _ _ => EventType.MOUSE_MOVE
  | click _ _ _ _ => EventType.MOUSE_CLICK
  | scroll _ _ _ _ => EventType.MOUSE_SCROLL
  | press _ => EventType.KEY_PRESS
  | release _ => EventType.KEY_RELEASE
  end.

(** [Recorder.start] hands [_on_mouse_move], [_on_mouse_click] and
    [_on_mouse_scroll] to the mouse listener, [_on_key_press] and
    [_on_key_release] to the keyboard listener; a listener that was not
    started reports nothing.  [now] is [time.time()] during the callback. *)
Definition deliver (r : Recorder.t) (stamped : float * input) : Recorder.t :=
  let (now, i) := stamped in
  match i with
  | move x y =>
      if Recorder._mouse_listener r then Recorder._on_mouse_move now x y r
      else r
  | click x y button pressed =>
      if Recorder._mouse_listener r
      then Recorder._on_mouse_click now x y button pressed r
      else r
  | scroll x y dx dy =>
      if Recorder._mouse_listener r
      then Recorder._on_mouse_scroll now x y dx dy r
      else r
  | press key =>
      if Recorder._keyboard_listener r then Recorder._on_key_press now key r
      else r
  | release key =>
      if Recorder._keyboard_listener r
      then Recorder._on_key_release now key r
      else r
  end.

(** A whole recording: [start()], the inputs in the order the callbacks
    run, [stop()] *)
Definition record (stamp : string) (start_time : float)
  (inputs : list (float * input)) (r : Recorder.t)
  : RecordingSession.t * Recorder.t :=
  Recorder.stop (fold_left deliver inputs (Recorder.start stamp start_time r)).

(** Whether the recorder's flags let an input through *)
Definition enabled (r : Recorder.t) (stamped : float * input) : bool :=
  if is_pointer (snd stamped) then Recorder.record_mouse r
  else Recorder.record_keyboard r.

End Listener.

(** The fields each kind of event carries (the docstring of [InputEvent]):
    a position for the pointer kinds, the button and its state for a
    click, the deltas for a scroll, the key and its state for the key
    kinds, and nothing else. *)
Definition carries_its_fields (e : InputEvent.t) : bool :=
  let some v := negb (is_None v) in
  let none v := is_None v in
  match InputEvent.event_type e with
  | EventType.MOUSE_MOVE =>
      some (InputEvent.x e) && some (InputEvent.y e)
      && none (InputEvent.button e) && none (InputEvent.pressed e)
      && none (InputEvent.key e) && none (InputEvent.dx e)
      && none (InputEvent.dy e)
  | EventType.MOUSE_CLICK =>
      some (InputEvent.x e) && some (InputEvent.y e)
      && some (InputEvent.button e) && some (InputEvent.pressed e)
      && none (InputEvent.key e) && none (InputEvent.dx e)
      && none (InputEvent.dy e)
  | EventType.MOUSE_SCROLL =>
      some (InputEvent.x e) && some (InputEvent.y e)
      && none (InputEvent.button e) && none (InputEvent.pressed e)
      && none (InputEvent.key e) && some (InputEvent.dx e)
      && some (InputEvent.dy e)
  | EventType.KEY_PRESS | EventType.KEY_RELEASE =>
      none (InputEvent.x e) && none (InputEvent.y e)
      && none (InputEvent.button e) && some (InputEvent.pressed e)
      && some (InputEvent.key e) && none (InputEvent.dx e)
      && none (InputEvent.dy e)
  end.

(** ** The listener of the hotkey manager *)

Module HotkeyListener.

Inductive input : Type :=
| press (key : Pynput.key)
| release (key : Pynput.key).

(** [HotkeyManager.start] hands [_on_key_press] and [_on_key_release] to
    the listener; without a started listener nothing is reported. *)
Definition deliver (m : HotkeyManager.t) (i : input) : HotkeyManager.t :=
  if HotkeyManager._listener m then
    match i with
    | press key => HotkeyManager._on_key_press key m
    | release key => HotkeyManager._on_key_release key m
    end
  else m.

(** The tokens of the keys that are down after an input *)
Definition held (keys : gset string) (i : input) : gset string :=
  match i with
  | press key => keys ∪ {[HotkeyManager._normalize_key key]}
  | release key => keys ∖ {[HotkeyManager._normalize_key key]}
  end.



End HotkeyListener.

(** ** Sessions on disk *)

Module Storage.

(** The outside of [save] and [load]: the text of each file, whether
    [open(filepath, 'w')] raises, and the [json] module's [dump] and
    [load].  [json.dump] writes as it goes: when it raises, the file is
    left with what was [written_before] the exception. *)
Record t : Type := mk {
  files : gmap string string;
  open_for_writing : string -> option exn;
  json_dump : value -> result string;
  written_before : value -> string;
  json_load : string -> result value
}.

(** Reading: a file that is not there cannot be opened. *)
Definition io (st : t) : IO :=
  Build_IO
    (fun filepath =>
       match files st !! filepath with
       | Some text => Ok text
       | None => Raise OSError
       end)
    (json_load st).



(** [RecordingSession.load(filepath)] *)
Definition load (now : string) (filepath : string) (st : t)
  : result (option RecordingSession.t) :=
  RecordingSession.load (io st) now filepath.

End Storage.

(** * Properties *)

(** ** Serialization of events and sessions *)

Section Serialization.

Import InputEvent.

Lemma lookup_set_unless_None_eq k v (data : gmap string value) :
  data !! k = None ->
  default VNone (set_unless_None k v data !! k) = v.
Proof.
  intros Hk. unfold set_unless_None.
  destruct v; simpl; rewrite ?Hk, ?lookup_insert_eq; reflexivity.
Qed.

Lemma lookup_set_unless_None_ne k k' v (data : gmap string value) :
  k <> k' ->
  set_unless_None k v data !! k' = data !! k'.
Proof.
  intros Hne. unfold set_unless_None.
  destruct (is_None v); [reflexivity | by rewrite lookup_insert_ne].
Qed.

Lemma by_name_name ty : EventType.by_name (EventType.name ty) = Some ty.
Proof. destruct ty; reflexivity. Qed.

Lemma getitem_name ty : EventType.getitem (VStr (EventType.name ty)) = Ok ty.
Proof. destruct ty; reflexivity. Qed.

(** [from_dict] on a dictionary, by what the dictionary holds *)
Lemma from_dict_VDict (m : gmap string value) :
  InputEvent.from_dict (VDict m) =
  match m !! "type" with
  | None => Raise (KeyError (VStr "type"))
  | Some ty =>
      match EventType.getitem ty with
      | Raise e => Raise e
      | Ok event_type =>
          match m !! "t" with
          | None => Raise (KeyError (VStr "t"))
          | Some ts =>
              Ok (InputEvent.mk ts event_type
                    (default VNone (m !! "x")) (default VNone (m !! "y"))
                    (default VNone (m !! "btn"))
                    (default VNone (m !! "pressed"))
                    (default VNone (m !! "key"))
                    (default VNone (m !! "dx")) (default VNone (m !! "dy")))
          end
      end
  end.
Proof.
  unfold from_dict, getitem, get, mbind, result_bind.
  destruct (m !! "type") as [ty|]; [|reflexivity]. cbn [bind].
  destruct (EventType.getitem ty); [|reflexivity]. cbn [bind].
  destruct (m !! "t"); reflexivity.
Qed.

Ltac lookup_to_dict :=
  repeat first
    [ rewrite lookup_set_unless_None_eq
        by (repeat first
              [ rewrite lookup_set_unless_None_ne by discriminate
              | rewrite lookup_insert_ne by discriminate
              | apply lookup_empty ])
    | rewrite lookup_set_unless_None_ne by discriminate
    | rewrite lookup_insert_eq
    | rewrite lookup_insert_ne by discriminate ].

Lemma event_round_trip (e : InputEvent.t) :
  InputEvent.from_dict (InputEvent.to_dict e) = Ok e.
Proof.
  destruct e as [ts ty vx vy vb vp vk vdx vdy].
  unfold to_dict; cbn [timestamp event_type x y button pressed key dx dy].
  rewrite from_dict_VDict.
  lookup_to_dict.
  rewrite getitem_name. reflexivity.
Qed.

Lemma comprehension_round_trip (es : list InputEvent.t) :
  comprehension InputEvent.from_dict (map InputEvent.to_dict es) = Ok es.
Proof.
  induction es as [|e es IH]; [reflexivity|].
  cbn [map comprehension]. rewrite event_round_trip.
  unfold mbind, result_bind in *. cbn [bind]. rewrite IH. reflexivity.
Qed.

Lemma session_round_trip (now : string) (s : RecordingSession.t) :
  RecordingSession.from_dict now (RecordingSession.to_dict s) = Ok s.
Proof.
  destruct s as [es c rm rk v n d].
  unfold RecordingSession.from_dict, RecordingSession.to_dict.
  cbn [RecordingSession.events RecordingSession.created_at
       RecordingSession.record_mouse RecordingSession.record_keyboard
       RecordingSession.version RecordingSession.name
       RecordingSession.description].
  unfold get, mbind, result_bind. cbn [bind].
  repeat first [rewrite lookup_insert_eq | rewrite lookup_insert_ne by discriminate].
  cbv [default from_option id]. cbn [iter bind].
  rewrite comprehension_round_trip. cbn [bind].
  repeat first [rewrite lookup_insert_eq | rewrite lookup_insert_ne by discriminate].
  reflexivity.
Qed.

End Serialization.

(** C1: serialization round-trips exactly.  For every [InputEvent], of any
    of the five kinds and whatever fields it populates (so in particular
    with exactly the fields of its kind), [from_dict (to_dict e)] returns
    [e]; and for every [RecordingSession], holding any events,
    [from_dict (to_dict s)] returns [s]: the same metadata and the same
    events in the same order. *)
Theorem serialization_round_trip :
  (forall e : InputEvent.t,
      InputEvent.from_dict (InputEvent.to_dict e) = Ok e)
  /\ (forall (now : string) (s : RecordingSession.t),
      RecordingSession.from_dict now (RecordingSession.to_dict s) = Ok s).
Proof. split; [exact event_round_trip | exact session_round_trip]. Qed.

(** ** Duration *)

Lemma get_duration_snoc (s : RecordingSession.t) es e :
  RecordingSession.events s = (es ++ [e])%list ->
  RecordingSession.get_duration s = InputEvent.timestamp e.
Proof.
  intros H. unfold RecordingSession.get_duration. rewrite H.
  destruct es as [|e0 es]; [reflexivity|].
  cbn [app]. f_equal. apply List.last_last.
Qed.

(** C7: the duration of a session is the timestamp of its last event, and
    [0.0] when it has no events; a session whose events carry the
    timestamps 0.0, 0.5 and 1.0 has duration 1.0. *)
Theorem duration_is_last_timestamp :
  (forall s, RecordingSession.events s = [] ->
             RecordingSession.get_duration s = VFloat 0)
  /\ (forall s es e, RecordingSession.events s = (es ++ [e])%list ->
             RecordingSession.get_duration s = InputEvent.timestamp e)
  /\ (forall s,
        map InputEvent.timestamp (RecordingSession.events s)
        = [VFloat 0; VFloat 0.5; VFloat 1] ->
        RecordingSession.get_duration s = VFloat 1).
Proof.
  split; [|split].
  - intros s H. unfold RecordingSession.get_duration. by rewrite H.
  - exact get_duration_snoc.
  - intros s H.
    destruct (RecordingSession.events s) as [|a [|b [|c [|d l]]]] eqn:E;
      try discriminate.
    rewrite (get_duration_snoc s [a; b] c E).
    by injection H.
Qed.

(** The session of the module's own self-test: a move at 0.0, a click at
    0.5 and a key press at 1.0. *)
Lemma duration_of_test_session :
  RecordingSession.get_duration
    (RecordingSession.mk
       [ InputEvent.mk (VFloat 0) EventType.MOUSE_MOVE (VInt 100) (VInt 200)
           VNone VNone VNone VNone VNone;
         InputEvent.mk (VFloat 0.5) EventType.MOUSE_CLICK (VInt 100)
           (VInt 200) (VStr "left") (VBool true) VNone VNone VNone;
         InputEvent.mk (VFloat 1) EventType.KEY_PRESS VNone VNone VNone
           (VBool true) (VStr "a") VNone VNone ]
       (VStr "2026-01-02T10:30:00") (VBool true) (VBool true)
       (VStr "1.0.0") (VStr "Teste") (VStr ""))
  = VFloat 1.
Proof.
  apply (proj2 (proj2 duration_is_last_timestamp)). reflexivity.
Defined.

(** ** Malformed data *)

Lemma by_name_Some s ty :
  EventType.by_name s = Some ty <-> s = EventType.name ty.
Proof.
  split.
  - unfold EventType.by_name. intros H.
    apply List.find_some in H as [_ H]. by apply String.eqb_eq in H.
  - intros ->. apply by_name_name.
Qed.

Lemma by_name_None s :
  ~ In s (map EventType.name EventType.members) -> EventType.by_name s = None.
Proof.
  intros H. destruct (EventType.by_name s) as [ty|] eqn:E; [|reflexivity].
  apply by_name_Some in E. subst s. exfalso. apply H.
  apply in_map. destruct ty; cbn; tauto.
Qed.

Lemma getitem_Ok v ty :
  EventType.getitem v = Ok ty <-> v = VStr (EventType.name ty).
Proof.
  split.
  - unfold EventType.getitem.
    destruct v; cbn [hashable negb]; try discriminate.
    destruct (EventType.by_name s) eqn:E; [|discriminate].
    intros [= ->]. apply by_name_Some in E. by subst s.
  - intros ->. apply getitem_name.
Qed.

Lemma load_total io now path :
  exists r, RecordingSession.load io now path = Ok r.
Proof.
  unfold RecordingSession.load, RecordingSession.try_except.
  match goal with |- context [match ?b with _ => _ end] => destruct b end;
    eauto.
Qed.

(** C5: an event dictionary whose kind is not the name of one of the five
    kinds, or that lacks ["type"] or ["t"], makes [InputEvent.from_dict]
    raise (the specification's format error is Python's [KeyError] here);
    [load] never raises, and returns [None] when reading the file fails,
    when parsing it fails, and when [from_dict] raises on what was parsed. *)
Theorem malformed_input_is_a_failure :
  (forall (m : gmap string value) s,
      m !! "type" = Some (VStr s) ->
      ~ In s (map EventType.name EventType.members) ->
      InputEvent.from_dict (VDict m) = Raise (KeyError (VStr s)))
  /\ (forall m : gmap string value,
      m !! "type" = None ->
      InputEvent.from_dict (VDict m) = Raise (KeyError (VStr "type")))
  /\ (forall (m : gmap string value) ty,
      m !! "type" = Some (VStr (EventType.name ty)) ->
      m !! "t" = None ->
      InputEvent.from_dict (VDict m) = Raise (KeyError (VStr "t")))
  /\ (forall io now path,
      exists r, RecordingSession.load io now path = Ok r)
  /\ (forall io now path,
      (exists e, read_text io path = Raise e)
      \/ (exists text e,
            read_text io path = Ok text /\ json_load io text = Raise e)
      \/ (exists text data e,
            read_text io path = Ok text /\ json_load io text = Ok data
            /\ RecordingSession.from_dict now data = Raise e) ->
      RecordingSession.load io now path = Ok None).
Proof.
  repeat split.
  - intros m s Hty Hs. rewrite from_dict_VDict, Hty.
    unfold EventType.getitem. cbn [hashable negb].
    by rewrite by_name_None.
  - intros m Hty. by rewrite from_dict_VDict, Hty.
  - intros m ty Hty Ht. by rewrite from_dict_VDict, Hty, getitem_name, Ht.
  - apply load_total.
  - intros io now path H. unfold RecordingSession.load.
    destruct H as [[e H]|[(text & e & H1 & H2)|(text & data & e & H1 & H2 & H3)]].
    + by rewrite H.
    + rewrite H1. cbn. by rewrite H2.
    + rewrite H1. cbn. rewrite H2. cbn. by rewrite H3.
Qed.

(** A file that parses to a session with one event of kind
    ["BOGUS_KIND"] loads as [None]. *)
Lemma load_bogus_kind :
  RecordingSession.load
    {| read_text := fun path =>
         if String.eqb path "bogus.json" then Ok "(the text of the file)"
         else Raise OSError;
       json_load := fun _ =>
         Ok (VDict
               (<["events" :=
                    VList [VDict (<["t" := VFloat 0]>
                                 (<["type" := VStr "BOGUS_KIND"]> ∅))]]> ∅)) |}
    "2026-01-02T10:30:00" "bogus.json"
  = Ok None.
Proof.
  apply (proj2 (proj2 (proj2 (proj2 malformed_input_is_a_failure)))).
  right; right. eexists _, _, _.
  split; [reflexivity|]. split; [reflexivity|].
  vm_compute. reflexivity.
Defined.

(** ** Defaults of a session dictionary *)

Lemma event_from_dict_Ok (m : gmap string value) :
  is_Ok (InputEvent.from_dict (VDict m))
  <-> InputEvent.required_fields (VDict m).
Proof.
  rewrite from_dict_VDict. unfold InputEvent.required_fields. split.
  - intros H. exists m. split; [reflexivity|].
    destruct (m !! "type") as [v|]; [|done].
    destruct (EventType.getitem v) as [ty|] eqn:E; [|done].
    apply getitem_Ok in E as ->.
    destruct (m !! "t"); [|done]. eauto.
  - intros (m' & [= <-] & [ts Ht] & ty & Hty).
    by rewrite Hty, getitem_name, Ht.
Qed.

Lemma comprehension_Ok (l : list value) :
  Forall (fun v => is_dict v = true) l ->
  is_Ok (comprehension InputEvent.from_dict l)
  <-> Forall InputEvent.required_fields l.
Proof.
  induction 1 as [|v l Hv Hl IH]; [by split|].
  destruct v; try discriminate. cbn [comprehension].
  pose proof (event_from_dict_Ok m) as Hm.
  unfold mbind, result_bind.
  destruct (InputEvent.from_dict (VDict m)) as [e|]; cbn [bind].
  - destruct (comprehension InputEvent.from_dict l); cbn [bind] in *.
    + split; [|done]. intros _. constructor; [by apply Hm | by apply IH].
    + split; [done|]. intros HF. apply IH. by inversion HF.
  - split; [done|]. intros HF. apply Hm. by inversion HF.
Qed.

(** C9, as amended: on a dictionary whose ["settings"], when present, is a
    dictionary and whose ["events"], when present, is a list of
    dictionaries, [RecordingSession.from_dict] supplies a default for
    every absent key (no events, [record_mouse] and [record_keyboard]
    true, version 1.0.0, the default name, an empty description, the
    current time) and succeeds exactly when every event dictionary has its
    ["t"] and the name of a known kind under ["type"]. *)
Theorem session_from_dict_defaults now (m : gmap string value) :
  RecordingSession.well_shaped m ->
  (Forall InputEvent.required_fields (RecordingSession.event_dicts m) ->
   exists events,
     comprehension InputEvent.from_dict (RecordingSession.event_dicts m)
     = Ok events
     /\ RecordingSession.from_dict now (VDict m)
        = Ok (RecordingSession.mk events
                (default (VStr now) (m !! "created_at"))
                (default (VBool true)
                   (RecordingSession.settings_of m !! "record_mouse"))
                (default (VBool true)
                   (RecordingSession.settings_of m !! "record_keyboard"))
                (default (VStr "1.0.0") (m !! "version"))
                (default (VStr RecordingSession.default_name) (m !! "name"))
                (default (VStr "") (m !! "description"))))
  /\ (~ Forall InputEvent.required_fields (RecordingSession.event_dicts m) ->
      exists e, RecordingSession.from_dict now (VDict m) = Raise e).
Proof.
  intros [Hs He].
  assert (Hd : Forall (fun v => is_dict v = true)
                 (RecordingSession.event_dicts m)).
  { unfold RecordingSession.event_dicts.
    destruct (m !! "events") as [[]|]; try done. }
  pose proof (comprehension_Ok _ Hd) as Hc.
  assert (Hiter : (raw ← get (VDict m) "events" (VList []); iter raw)
                  = Ok (RecordingSession.event_dicts m)).
  { unfold RecordingSession.event_dicts. cbn.
    destruct (m !! "events") as [[]|]; try done. }
  assert (Hset : get (VDict m) "settings" (VDict ∅)
                 = Ok (VDict (RecordingSession.settings_of m))).
  { unfold RecordingSession.settings_of. cbn.
    destruct (m !! "settings") as [[]|]; try done. }
  unfold RecordingSession.from_dict.
  rewrite Hset. unfold mbind, result_bind in *. cbn [bind].
  destruct (get (VDict m) "events" (VList [])) as [raw|]; [|done].
  cbn [bind] in *. rewrite Hiter. cbn [bind get].
  split.
  - intros HF. apply Hc in HF.
    destruct (comprehension InputEvent.from_dict _) as [events|]; [|done].
    exists events. by split.
  - intros HF.
    destruct (comprehension InputEvent.from_dict _) as [events|] eqn:E.
    + exfalso. apply HF, Hc. done.
    + cbn [bind]. eauto.
Qed.

(** A dictionary with a name and one key press, and nothing else: the
    other fields get their defaults. *)
Lemma session_defaults_example :
  RecordingSession.from_dict "2026-01-02T10:30:00"
    (VDict (<["name" := VStr "demo"]>
           (<["events" :=
                VList [VDict (<["t" := VFloat 0.5]>
                             (<["type" := VStr "KEY_PRESS"]>
                             (<["key" := VStr "a"]> ∅)))]]> ∅)))
  = Ok (RecordingSession.mk
          [InputEvent.mk (VFloat 0.5) EventType.KEY_PRESS VNone VNone VNone
             VNone (VStr "a") VNone VNone]
          (VStr "2026-01-02T10:30:00") (VBool true) (VBool true)
          (VStr "1.0.0") (VStr "demo") (VStr "")).
Proof.
  match goal with
  | |- RecordingSession.from_dict ?now (VDict ?m) = _ =>
      destruct (session_from_dict_defaults now m) as [H _]
  end.
  - split; [exact I|]. vm_compute. repeat constructor.
  - destruct H as (events & Hc & Heq).
    + vm_compute. constructor; [|constructor].
      eexists. split; [reflexivity|]. split; [by eexists|].
      exists EventType.KEY_PRESS. reflexivity.
    + vm_compute in Hc. injection Hc as <-. exact Heq.
Defined.

(** A session dictionary with no events at all, whose ["settings"] is
    [null]: every event there is has its required fields, and
    [from_dict] raises. *)
Lemma settings_null_fails :
  Forall InputEvent.required_fields
    (RecordingSession.event_dicts (<["settings" := VNone]> ∅))
  /\ RecordingSession.from_dict "2026-01-02T10:30:00"
       (VDict (<["settings" := VNone]> ∅))
     = Raise AttributeError.
Proof. split; [constructor | reflexivity]. Qed.

(** ** The recorder's capture callbacks *)

(** X3 (claim C8): each of the five capture callbacks returns the recorder as it was
    (the same session, so the same event list, and no call of the
    per-event callback) when [is_recording] is false or when the flag of
    its channel is false: [record_mouse] for the three pointer callbacks,
    [record_keyboard] for the two key callbacks. *)
Theorem capture_is_gated (r : Recorder.t) (now : float) :
  (Recorder.is_recording r = false \/ Recorder.record_mouse r = false ->
   (forall x y, Recorder._on_mouse_move now x y r = r)
   /\ (forall x y button pressed,
         Recorder._on_mouse_click now x y button pressed r = r)
   /\ (forall x y dx dy, Recorder._on_mouse_scroll now x y dx dy r = r))
  /\ (Recorder.is_recording r = false \/ Recorder.record_keyboard r = false ->
      (forall key, Recorder._on_key_press now key r = r)
      /\ (forall key, Recorder._on_key_release now key r = r)).
Proof.
  unfold Recorder._on_mouse_move, Recorder._on_mouse_click,
    Recorder._on_mouse_scroll, Recorder._on_key_press,
    Recorder._on_key_release.
  split; intros [H|H]; rewrite H; rewrite ?orb_true_r; cbn [negb orb];
    repeat split.
Qed.

(** A recorder that was started with the keyboard channel off: its key
    callbacks change nothing, while a pointer move is appended. *)
Lemma keyboard_channel_off :
  let r := Recorder.start "2026-01-02T10:30:00" 100
             (Recorder.init "2026-01-02T10:29:00" true false (Some 7%nat)) in
  Recorder._on_key_press 101 (Pynput.KeyCode (Some "a") "'a'") r = r
  /\ RecordingSession.events
       (Recorder.session (Recorder._on_mouse_move 101 10 20 r))
     = [InputEvent.mk (VFloat 1) EventType.MOUSE_MOVE (VInt 10) (VInt 20)
          VNone VNone VNone VNone VNone].
Proof.
  split.
  - apply (proj2 (capture_is_gated _ 101%float)). right. reflexivity.
  - reflexivity.
Defined.

(** ** Hotkey dispatch *)

Section Hotkeys.

Import HotkeyManager.





End Hotkeys.





(** ** The player: starting a replay *)

(** X1 (claim C2): [play(session)] returns false and leaves the player exactly as it
    was (no replay thread is started, the stored session, the state flag
    and the counters are unchanged) when the player is already playing or
    the session is missing or has no events; otherwise it stores the
    session, clears the stop flag, sets the state to playing, starts the
    replay thread and returns true, without running any of the replay
    itself: the counters are the ones it found. *)
Theorem play_starts_or_refuses (p : Player.t)
  (session : option RecordingSession.t) :
  (Player.is_playing p = true
   \/ session = None
   \/ (exists s, session = Some s /\ RecordingSession.events s = []) ->
   Player.play session p = (false, p))
  /\ (forall s,
        Player.is_playing p = false ->
        session = Some s ->
        RecordingSession.events s <> [] ->
        Player.play session p
        = (true,
           Player.mk true (Player.loop_mode p) (Player.loop_value p)
             (Player.speed_multiplier p) (Some s)
             (Some (Player.Thread "TarefAuto-Playback" true)) false
             (Player._on_progress_callback p)
             (Player._on_complete_callback p)
             (Player._loops_completed p) (Player._events_played p)
             (Player._current_loop p) (Player._start_time p)
             (S (Player.threads_started p)))).
Proof.
  unfold Player.play. split.
  - intros [H|[->|(s & -> & H)]].
    + by rewrite H.
    + by destruct (Player.is_playing p).
    + rewrite H. by destruct (Player.is_playing p).
  - intros s Hidle -> Hev. rewrite Hidle.
    by destruct (RecordingSession.events s).
Qed.

(** A fresh player accepts a session of one event, and then refuses a
    second [play] while the first replay is on. *)
Lemma play_twice :
  let e := InputEvent.mk (VFloat 0) EventType.MOUSE_MOVE (VInt 100)
             (VInt 200) VNone VNone VNone VNone VNone in
  let s := RecordingSession.mk [e] (VStr "2026-01-02T10:30:00") (VBool true)
             (VBool true) (VStr "1.0.0") (VStr "demo") (VStr "") in
  let p1 := snd (Player.play (Some s) (Player.init None None)) in
  Player.is_playing p1 = true
  /\ Player.threads_started p1 = 1%nat
  /\ Player.play (Some s) p1 = (false, p1).
Proof.
  intros e s p1. split; [reflexivity|]. split; [reflexivity|].
  apply (proj1 (play_starts_or_refuses p1 (Some s))). left. reflexivity.
Defined.

(** ** The player: an unknown mouse button *)

(** X4 (claim C10): for a button name that, in lower case, is none of [left],
    [right] and [middle], [_get_mouse_button] returns the left button, and
    replaying a click with that name does not fail: the pointer is set to
    the event's position and the left button is pressed or released. *)
Theorem unknown_button_is_left (w : Player.world) (name : string)
  (event : InputEvent.t) (s : Player.run) :
  Str.lower name <> "left" ->
  Str.lower name <> "right" ->
  Str.lower name <> "middle" ->
  InputEvent.event_type event = EventType.MOUSE_CLICK ->
  InputEvent.button event = VStr name ->
  (forall c, Player.controller w c = None) ->
  Player._get_mouse_button (VStr name) = Ok Player.left
  /\ Player._execute_event w event s
     = Player.Done tt
         (Player.Run (Player.self s) (Player.ticks s) (Player.polls s)
            (Player.trace s
             ++ [Player.Execute event;
                 Player.Inject
                   (Player.set_position (InputEvent.x event)
                      (InputEvent.y event));
                 Player.Inject
                   (if truthy (InputEvent.pressed event)
                    then Player.mouse_press Player.left
                    else Player.mouse_release Player.left)])%list).
Proof.
  intros Hl Hr Hm Hty Hb Hc.
  assert (Hbtn : Player._get_mouse_button (VStr name) = Ok Player.left).
  { unfold Player._get_mouse_button.
    apply String.eqb_neq in Hl, Hr, Hm. by rewrite Hl, Hr, Hm. }
  split; [exact Hbtn|].
  unfold Player._execute_event. rewrite Hty, Hb, Hbtn.
  unfold Player.inject, mbind, Player.M_bind, Player.bindM, Player.emit,
    Player.lift, Player.ret.
  cbn [Player.self Player.ticks Player.polls Player.trace].
  rewrite !Hc.
  destruct (truthy (InputEvent.pressed event));
    cbn [Player.self Player.ticks Player.polls Player.trace];
    by rewrite <- !app_assoc.
Qed.

(** A press of a button recorded as ["x1"] is replayed as a press of the
    left button at the recorded position. *)
Lemma side_button_example :
  let w := {| Player.time_at := fun _ => 0%float;
              Player.stop_at := fun _ => false;
              Player.controller := fun _ => None;
              Player.Key_member := fun _ => false |} in
  let event := InputEvent.mk (VFloat 0.5) EventType.MOUSE_CLICK (VInt 100)
                 (VInt 200) (VStr "x1") (VBool true) VNone VNone VNone in
  Player._get_mouse_button (VStr "x1") = Ok Player.left
  /\ Player._execute_event w event
       (Player.Run (Player.init None None) 0 0 [])
     = Player.Done tt
         (Player.Run (Player.init None None) 0 0
            [Player.Execute event;
             Player.Inject (Player.set_position (VInt 100) (VInt 200));
             Player.Inject (Player.mouse_press Player.left)]).
Proof.
  intros w event.
  apply (unknown_button_is_left w "x1" event
           (Player.Run (Player.init None None) 0 0 []));
    try discriminate; reflexivity.
Defined.

(** ** More on the event model *)

(** X5: [InputEvent.from_dict] reads the nine keys [t], [type], [x], [y],
    [btn], [pressed], [key], [dx], [dy] and nothing else: an entry under
    any other key changes neither whether it succeeds nor the event it
    returns. *)
Theorem from_dict_ignores_other_keys (m : gmap string value) (k : string)
  (v : value) :
  ~ In k ["t"; "type"; "x"; "y"; "btn"; "pressed"; "key"; "dx"; "dy"] ->
  InputEvent.from_dict (VDict (<[k := v]> m)) = InputEvent.from_dict (VDict m).
Proof.
  intros Hk. rewrite !from_dict_VDict.
  assert (Hne : forall k', In k' ["t"; "type"; "x"; "y"; "btn"; "pressed";
                                   "key"; "dx"; "dy"] ->
                           (<[k := v]> m) !! k' = m !! k').
  { intros k' Hin. apply lookup_insert_ne. intros ->. by apply Hk. }
  rewrite !Hne by (cbn; tauto). reflexivity.
Qed.

(** A move with a comment attached loads as the same move. *)
Lemma from_dict_with_comment :
  InputEvent.from_dict
    (VDict (<["comment" := VStr "added by hand"]>
           (<["t" := VFloat 1]>
           (<["type" := VStr "MOUSE_MOVE"]>
           (<["x" := VInt 100]> (<["y" := VInt 200]> ∅))))))
  = Ok (InputEvent.mk (VFloat 1) EventType.MOUSE_MOVE (VInt 100) (VInt 200)
          VNone VNone VNone VNone VNone).
Proof.
  rewrite from_dict_ignores_other_keys.
  - vm_compute. reflexivity.
  - intros H. cbn in H. intuition discriminate.
Defined.

(** X6: the dictionary [to_dict] builds is compact: it always holds the
    timestamp under [t] and the kind's name under [type]; each of the seven
    optional keys is present exactly when its field is not [None], and then
    holds the field; no other key is present. *)
Theorem to_dict_is_compact (e : InputEvent.t) :
  exists m : gmap string value,
    InputEvent.to_dict e = VDict m
    /\ m !! "t" = Some (InputEvent.timestamp e)
    /\ m !! "type" = Some (VStr (EventType.name (InputEvent.event_type e)))
    /\ (forall k field,
          In (k, field)
            [("x", InputEvent.x e); ("y", InputEvent.y e);
             ("btn", InputEvent.button e); ("pressed", InputEvent.pressed e);
             ("key", InputEvent.key e); ("dx", InputEvent.dx e);
             ("dy", InputEvent.dy e)] ->
          m !! k = if is_None field then None else Some field)
    /\ (forall k,
          ~ In k ["t"; "type"; "x"; "y"; "btn"; "pressed"; "key"; "dx"; "dy"] ->
          m !! k = None).
Proof.
  destruct e as [ts ty vx vy vb vp vk vdx vdy].
  eexists. split; [reflexivity|].
  cbn [InputEvent.timestamp InputEvent.event_type InputEvent.x InputEvent.y
       InputEvent.button InputEvent.pressed InputEvent.key InputEvent.dx
       InputEvent.dy].
  assert (Hset : forall k f (d : gmap string value),
             d !! k = None ->
             InputEvent.set_unless_None k f d !! k
             = if is_None f then None else Some f).
  { intros k f d Hd. unfold InputEvent.set_unless_None.
    destruct (is_None f); [exact Hd | apply lookup_insert_eq]. }
  split; [|split; [|split]].
  - repeat (rewrite lookup_set_unless_None_ne by discriminate).
    rewrite lookup_insert_ne by discriminate. apply lookup_insert_eq.
  - repeat (rewrite lookup_set_unless_None_ne by discriminate).
    apply lookup_insert_eq.
  - intros k f Hin. cbn in Hin.
    repeat (destruct Hin as [[= <- <-]|Hin]; [
      repeat (rewrite lookup_set_unless_None_ne by discriminate);
      apply Hset;
      repeat (rewrite lookup_set_unless_None_ne by discriminate);
      rewrite !lookup_insert_ne by discriminate; apply lookup_empty |]).
    destruct Hin.
  - intros k Hk.
    assert (Hne : forall k', In k' ["t"; "type"; "x"; "y"; "btn"; "pressed";
                                     "key"; "dx"; "dy"] -> k' <> k).
    { intros k' Hin ->. by apply Hk. }
    repeat (rewrite lookup_set_unless_None_ne by (apply Hne; cbn; tauto)).
    rewrite !lookup_insert_ne by (apply Hne; cbn; tauto).
    apply lookup_empty.
Qed.

(** ** A whole recording *)

Section Recording.

Let running (r : Recorder.t) : Prop :=
  Recorder.is_recording r = true
  /\ (Recorder.record_mouse r = true -> Recorder._mouse_listener r = true)
  /\ (Recorder.record_keyboard r = true
      -> Recorder._keyboard_listener r = true).

Lemma start_running stamp now r :
  Recorder.is_recording r = false ->
  running (Recorder.start stamp now r)
  /\ Recorder.record_mouse (Recorder.start stamp now r)
     = Recorder.record_mouse r
  /\ Recorder.record_keyboard (Recorder.start stamp now r)
     = Recorder.record_keyboard r
  /\ Recorder._start_time (Recorder.start stamp now r) = now
  /\ RecordingSession.events (Recorder.session (Recorder.start stamp now r))
     = []
  /\ Recorder.notified (Recorder.start stamp now r) = Recorder.notified r
  /\ Recorder._on_event_callback (Recorder.start stamp now r)
     = Recorder._on_event_callback r.
Proof.
  intros Hrec. unfold Recorder.start, running. rewrite Hrec. cbn.
  repeat split; intros ->; reflexivity.
Qed.

Lemma deliver_running r now i :
  running r ->
  exists e,
    InputEvent.event_type e = Listener.kind i
    /\ InputEvent.timestamp e = VFloat (now - Recorder._start_time r)
    /\ carries_its_fields e = true
    /\ let r' := Listener.deliver r (now, i) in
       running r'
       /\ Recorder.record_mouse r' = Recorder.record_mouse r
       /\ Recorder.record_keyboard r' = Recorder.record_keyboard r
       /\ Recorder._start_time r' = Recorder._start_time r
       /\ Recorder._on_event_callback r' = Recorder._on_event_callback r
       /\ RecordingSession.events (Recorder.session r')
          = (RecordingSession.events (Recorder.session r)
             ++ if Listener.enabled r (now, i) then [e] else [])%list
       /\ Recorder.notified r'
          = (Recorder.notified r
             ++ match Recorder._on_event_callback r with
                | Some cb =>
                    if Listener.enabled r (now, i) then [(cb, e)] else []
                | None => []
                end)%list.
Proof.
  intros (Hrec & Hm & Hk).
  destruct r as [rm rk rec s t0 ml kl cb ns]. cbn in Hrec, Hm, Hk. subst rec.
  destruct i as [x y|x y b p|x y dx dy|k|k];
    unfold Listener.deliver, Listener.enabled, running,
      Recorder._on_mouse_move, Recorder._on_mouse_click,
      Recorder._on_mouse_scroll, Recorder._on_key_press,
      Recorder._on_key_release, Recorder._add_event,
      Recorder._get_relative_time, RecordingSession.add_event;
    cbn [snd Listener.is_pointer Listener.kind Recorder.is_recording
         Recorder.record_mouse Recorder.record_keyboard Recorder.session
         Recorder._start_time Recorder._mouse_listener
         Recorder._keyboard_listener Recorder._on_event_callback
         Recorder.notified negb orb RecordingSession.events].
  1: exists (InputEvent.mk (VFloat (now - t0)) EventType.MOUSE_MOVE (VInt x)
               (VInt y) VNone VNone VNone VNone VNone).
  2: exists (InputEvent.mk (VFloat (now - t0)) EventType.MOUSE_CLICK (VInt x)
               (VInt y)
               (VStr match Pynput.button_name b with
                     | Some name => name
                     | None => Pynput.button_repr b
                     end)
               (VBool p) VNone VNone VNone).
  3: exists (InputEvent.mk (VFloat (now - t0)) EventType.MOUSE_SCROLL (VInt x)
               (VInt y) VNone VNone VNone (VInt dx) (VInt dy)).
  4: exists (InputEvent.mk (VFloat (now - t0)) EventType.KEY_PRESS VNone VNone
               VNone (VBool true) (VStr (Recorder._get_key_string k)) VNone
               VNone).
  5: exists (InputEvent.mk (VFloat (now - t0)) EventType.KEY_RELEASE VNone
               VNone VNone (VBool false) (VStr (Recorder._get_key_string k))
               VNone VNone).
  all: split; [reflexivity|]; split; [reflexivity|]; split; [reflexivity|].
  all: try (destruct rm; [rewrite (Hm eq_refl)|destruct ml]).
  all: try (destruct rk; [rewrite (Hk eq_refl)|destruct kl]).
  all: cbn; rewrite ?app_nil_r; destruct cb; rewrite ?app_nil_r;
    repeat split; auto.
Qed.

Lemma record_running inputs :
  forall r, running r ->
  let r' := fold_left Listener.deliver inputs r in
  exists es,
    RecordingSession.events (Recorder.session r')
    = (RecordingSession.events (Recorder.session r) ++ es)%list
    /\ map InputEvent.event_type es
       = map (fun p => Listener.kind (snd p))
           (List.filter (Listener.enabled r) inputs)
    /\ map InputEvent.timestamp es
       = map (fun p => VFloat (fst p - Recorder._start_time r))
           (List.filter (Listener.enabled r) inputs)
    /\ forallb carries_its_fields es = true
    /\ Recorder.notified r'
       = (Recorder.notified r
          ++ match Recorder._on_event_callback r with
             | Some cb => map (pair cb) es
             | None => []
             end)%list
    /\ Recorder.is_recording r' = true.
Proof.
  induction inputs as [|[now i] inputs IH]; intros r Hr.
  - exists []. cbn. rewrite !app_nil_r. destruct Hr as (Hrec & _).
    destruct (Recorder._on_event_callback r); rewrite ?app_nil_r;
      repeat split; auto.
  - destruct (deliver_running r now i Hr)
      as (e & Hty & Hts & Hf & Hr1 & Hm & Hk & Ht0 & Hcb & Hev & Hno).
    cbn [fold_left]. cbn zeta.
    destruct (IH _ Hr1) as (es & Hev' & Htys & Htss & Hfs & Hno' & Hrec').
    assert (Hen : forall a, Listener.enabled (Listener.deliver r (now, i)) a
                          = Listener.enabled r a).
    { intros a. unfold Listener.enabled. by rewrite Hm, Hk. }
    rewrite (List.filter_ext _ _ Hen) in Htys, Htss.
    rewrite Ht0 in Htss. rewrite Hcb in Hno'.
    exists ((if Listener.enabled r (now, i) then [e] else []) ++ es)%list.
    rewrite Hev', Hev, Hno', Hno, <- !app_assoc. cbn [List.filter].
    destruct (Listener.enabled r (now, i));
      cbn [map forallb app fst snd andb];
      rewrite ?Hty, ?Hts, ?Hf, ?Htys, ?Htss;
      destruct (Recorder._on_event_callback r); cbn [map app];
      rewrite ?app_nil_r; repeat split; auto.
Qed.

End Recording.

(** X7: a recording keeps, in the order the callbacks ran, exactly the
    inputs whose channel is enabled: pointer inputs when [record_mouse] is
    set, key inputs when [record_keyboard] is set.  The session [stop]
    returns holds one event per such input, of the input's kind, stamped
    with the callback's clock reading minus the clock reading at [start];
    its duration is the stamp of the last of them, or [0.0] when nothing
    was kept. *)
Theorem recording_keeps_enabled_inputs (stamp : string) (t0 : float)
  (inputs : list (float * Listener.input)) (r : Recorder.t) :
  Recorder.is_recording r = false ->
  let s := fst (Listener.record stamp t0 inputs r) in
  let kept := List.filter (Listener.enabled r) inputs in
  map InputEvent.event_type (RecordingSession.events s)
  = map (fun p => Listener.kind (snd p)) kept
  /\ map InputEvent.timestamp (RecordingSession.events s)
     = map (fun p => VFloat (fst p - t0)) kept
  /\ RecordingSession.get_duration s
     = match rev kept with
       | [] => VFloat 0
       | p :: _ => VFloat (fst p - t0)
       end.
Proof.
  intros Hrec s kept.
  destruct (start_running stamp t0 r Hrec)
    as (Hrun & Hm & Hk & Ht0 & Hnil & _).
  destruct (record_running inputs _ Hrun) as (es & Hev & Hty & Hts & _ & _ & Hon).
  assert (Hen : forall a, Listener.enabled (Recorder.start stamp t0 r) a
                        = Listener.enabled r a).
  { intros a. unfold Listener.enabled. by rewrite Hm, Hk. }
  rewrite (List.filter_ext _ _ Hen) in Hty, Hts. rewrite Ht0 in Hts.
  rewrite Hnil in Hev. cbn [app] in Hev.
  assert (Hs : RecordingSession.events s = es).
  { subst s. unfold Listener.record, Recorder.stop. rewrite Hon. exact Hev. }
  rewrite Hs. split; [exact Hty|]. split; [exact Hts|].
  fold kept in Hts. clear Hty.
  destruct kept as [|p kept' _] using rev_ind.
  - apply map_eq_nil in Hts. unfold RecordingSession.get_duration.
    rewrite Hs, Hts. reflexivity.
  - rewrite rev_app_distr. cbn [rev app].
    destruct es as [|e es' _] using rev_ind.
    + rewrite map_app in Hts. by destruct (map _ kept').
    + rewrite !map_app in Hts. cbn [map] in Hts.
      apply app_inj_tail in Hts as [_ Hlast].
      rewrite (get_duration_snoc s es' e Hs). exact Hlast.
Qed.

(** A recorder set to capture the mouse only: the key press in the middle
    is dropped, the move and the click are kept with their relative
    times. *)
Lemma mouse_only_recording :
  let s :=
    fst (Listener.record "2024-01-01T00:00:00" 1
           [ (1.5%float, Listener.move 10 20);
             (2%float, Listener.press (Pynput.Key "space" "Key.space"));
             (2.5%float,
              Listener.click 10 20
                {| Pynput.button_name := Some "left";
                   Pynput.button_repr := "Button.left" |} true) ]
           (Recorder.init "2024-01-01T00:00:00" true false None)) in
  map InputEvent.event_type (RecordingSession.events s)
  = [EventType.MOUSE_MOVE; EventType.MOUSE_CLICK]
  /\ map InputEvent.timestamp (RecordingSession.events s)
     = [VFloat 0.5; VFloat 1.5]
  /\ RecordingSession.get_duration s = VFloat 1.5.
Proof.
  exact (recording_keeps_enabled_inputs "2024-01-01T00:00:00" 1
           [ (1.5%float, Listener.move 10 20);
             (2%float, Listener.press (Pynput.Key "space" "Key.space"));
             (2.5%float,
              Listener.click 10 20
                {| Pynput.button_name := Some "left";
                   Pynput.button_repr := "Button.left" |} true) ]
           (Recorder.init "2024-01-01T00:00:00" true false None) eq_refl).
Defined.

(** X8: every event of a recording carries exactly the fields of its kind:
    a position for a move, a position, the button and its state for a
    click, a position and both deltas for a scroll, the key and its state
    for a key press or release, and [None] in every other field. *)
Theorem recorded_events_carry_their_fields (stamp : string) (t0 : float)
  (inputs : list (float * Listener.input)) (r : Recorder.t) :
  Recorder.is_recording r = false ->
  forallb carries_its_fields
    (RecordingSession.events (fst (Listener.record stamp t0 inputs r)))
  = true.
Proof.
  intros Hrec.
  destruct (start_running stamp t0 r Hrec) as (Hrun & _ & _ & _ & Hnil & _).
  destruct (record_running inputs _ Hrun) as (es & Hev & _ & _ & Hf & _ & Hon).
  unfold Listener.record, Recorder.stop. rewrite Hon. cbn [negb fst].
  rewrite Hev, Hnil. exact Hf.
Qed.

Lemma scroll_and_key_carry_their_fields :
  forallb carries_its_fields
    (RecordingSession.events
       (fst (Listener.record "2024-01-01T00:00:00" 1
               [ (1.5%float, Listener.scroll 10 20 0 (-1));
                 (2%float, Listener.release (Pynput.KeyCode (Some "a") "'a'")) ]
               (Recorder.init "2024-01-01T00:00:00" true true None))))
  = true.
Proof.
  exact (recorded_events_carry_their_fields "2024-01-01T00:00:00" 1
           [ (1.5%float, Listener.scroll 10 20 0 (-1));
             (2%float, Listener.release (Pynput.KeyCode (Some "a") "'a'")) ]
           (Recorder.init "2024-01-01T00:00:00" true true None) eq_refl).
Defined.



(** X10: [update_settings] during a recording.  Turning a channel off
    takes effect at once, since each callback reads the flag when it runs;
    turning a channel on does nothing until the next [start], since no
    listener was started for it.  So an input is recorded exactly when its
    channel was on at [start] and is on when the callback runs. *)
Theorem settings_change_during_recording (stamp : string) (t0 now : float)
  (mouse keyboard : bool) (i : Listener.input) (r : Recorder.t) :
  Recorder.is_recording r = false ->
  Recorder._mouse_listener r = false ->
  Recorder._keyboard_listener r = false ->
  let r1 := Recorder.update_settings mouse keyboard
              (Recorder.start stamp t0 r) in
  let on := if Listener.is_pointer i then Recorder.record_mouse r && mouse
            else Recorder.record_keyboard r && keyboard in
  if on then Recorder.get_event_count (Listener.deliver r1 (now, i)) = 1%nat
  else Listener.deliver r1 (now, i) = r1.
Proof.
  intros Hrec Hml Hkl.
  destruct r as [rm rk rec s ts ml kl cb ns]. cbn in Hrec, Hml, Hkl. subst.
  destruct i, rm, rk, mouse, keyboard; reflexivity.
Qed.

Lemma keyboard_switched_on_too_late :
  let r1 := Recorder.update_settings true true
              (Recorder.start "2024-01-01T00:00:00" 1
                 (Recorder.init "2024-01-01T00:00:00" true false None)) in
  Listener.deliver r1 (2%float, Listener.press (Pynput.KeyCode (Some "a") "'a'"))
  = r1.
Proof.
  exact (settings_change_during_recording "2024-01-01T00:00:00" 1 2 true true
           (Listener.press (Pynput.KeyCode (Some "a") "'a'"))
           (Recorder.init "2024-01-01T00:00:00" true false None)
           eq_refl eq_refl eq_refl).
Defined.

(** ** The table of hotkeys *)

Section HotkeyTable.

Import HotkeyManager.





End HotkeyTable.

Section HotkeyRemoval.

Import HotkeyManager.


Lemma filter_drops_key (k : string) (d : list (string * callback)) :
  ~ In k (map fst (filter (fun item => fst item ≠ k) d)).
Proof.
  intros Hin. apply in_map_iff in Hin as ([k' v'] & Hfst & Hin).
  cbn in Hfst. subst k'.
  apply list_elem_of_In, list_elem_of_filter in Hin as [Hne _]. by apply Hne.
Qed.

Lemma existsb_key (k : string) (d : list (string * callback)) :
  existsb (fun item => String.eqb (fst item) k) d = true <-> In k (map fst d).
Proof.
  rewrite existsb_exists, in_map_iff. split.
  - intros (item & Hin & Heq). apply String.eqb_eq in Heq. by exists item.
  - intros (item & Heq & Hin). exists item. split; [done|].
    by apply String.eqb_eq.
Qed.

End HotkeyRemoval.





(** X13: a combination can be removed once: whatever the table held, a
    second [unregister_hotkey] of the same combination answers [False] and
    changes nothing, because the first one left no entry for it. *)
Theorem unregister_hotkey_twice (hotkey : string) (m : HotkeyManager.t) :
  let m1 := snd (HotkeyManager.unregister_hotkey hotkey m) in
  HotkeyManager.unregister_hotkey hotkey m1 = (false, m1).
Proof.
  intros m1.
  assert (Hout : ~ In (Str.strip (Str.lower hotkey))
                     (map fst (HotkeyManager._hotkeys m1))).
  { subst m1. unfold HotkeyManager.unregister_hotkey.
    destruct (existsb _ _) eqn:E; cbn [snd HotkeyManager._hotkeys].
    - apply filter_drops_key.
    - intros Hin. apply existsb_key in Hin. congruence. }
  unfold HotkeyManager.unregister_hotkey at 1.
  destruct (existsb _ (HotkeyManager._hotkeys m1)) eqn:E; [|reflexivity].
  apply existsb_key in E. done.
Qed.

(** ** The hotkey listener *)

Section HotkeyRuns.

Import HotkeyManager.


Lemma deliver_muted (m : t) (i : HotkeyListener.input) :
  _processing_enabled m = false ->
  _listener m = true ->
  _enabled m = true ->
  HotkeyListener.deliver m i
  = mk (_hotkeys m) (HotkeyListener.held (_pressed_keys m) i) true true false
       (started m).
Proof.
  intros Hp Hl He. destruct m as [hs ps l e p st]. cbn in Hp, Hl, He. subst.
  destruct i; reflexivity.
Qed.

End HotkeyRuns.

(** X14: while dispatch is switched off with [set_enabled(False)], a
    running manager starts no callback whatever is typed and keeps its
    table, yet goes on tracking the keys that are down: each key-down adds
    the key's token to the held set and each key-up removes it. *)
Theorem muted_manager_starts_nothing (m : HotkeyManager.t)
  (inputs : list HotkeyListener.input) :
  HotkeyManager._listener m = true ->
  HotkeyManager._enabled m = true ->
  fold_left HotkeyListener.deliver inputs (HotkeyManager.set_enabled false m)
  = HotkeyManager.mk (HotkeyManager._hotkeys m)
      (fold_left HotkeyListener.held inputs (HotkeyManager._pressed_keys m))
      true true false (HotkeyManager.started m).
Proof.
  intros Hl He. destruct m as [hs ps l e p st]. cbn in Hl, He. subst.
  unfold HotkeyManager.set_enabled.
  cbn [HotkeyManager._hotkeys HotkeyManager._pressed_keys
       HotkeyManager._listener HotkeyManager._enabled HotkeyManager.started].
  revert ps. induction inputs as [|i inputs IH]; intros ps; [reflexivity|].
  cbn [fold_left]. rewrite deliver_muted by reflexivity.
  cbn [HotkeyManager._hotkeys HotkeyManager._pressed_keys
       HotkeyManager.started]. apply IH.
Qed.

Lemma muted_escape :
  let m := HotkeyManager.mk [("<escape>", 3%nat)] ∅ true true true [] in
  let esc := Pynput.Key "esc" "Key.esc" in
  fold_left HotkeyListener.deliver [HotkeyListener.press esc]
    (HotkeyManager.set_enabled false m)
  = HotkeyManager.mk [("<escape>", 3%nat)]
      (fold_left HotkeyListener.held [HotkeyListener.press esc] ∅)
      true true false [].
Proof.
  exact (muted_manager_starts_nothing
           (HotkeyManager.mk [("<escape>", 3%nat)] ∅ true true true [])
           [HotkeyListener.press (Pynput.Key "esc" "Key.esc")]
           eq_refl eq_refl).
Defined.



Section SuperKey.

Import HotkeyManager.




End SuperKey.



(** ** The replay thread *)

Section Replay.

Import Player.

Lemma positive_speed_divides (speed : float) :
  PrimFloat.ltb 0 speed = true -> PrimFloat.eqb speed 0 = false.
Proof.
  intros H. rewrite FloatAxioms.ltb_spec in H. rewrite FloatAxioms.eqb_spec.
  change (Prim2SF 0) with (S754_zero false) in *.
  destruct (Prim2SF speed) as [sg|sg| |sg m e]; try discriminate;
    try reflexivity.
  all: destruct sg; reflexivity.
Qed.

Lemma schedule_app (tr tr' : list action) :
  schedule (tr ++ tr') = (schedule tr ++ schedule tr')%list.
Proof. apply List.filter_app. Qed.

Lemma executed_app (tr tr' : list action) :
  executed (tr ++ tr') = (executed tr ++ executed tr')%list.
Proof. apply omap_app. Qed.

Lemma reports_app (tr tr' : list action) :
  reports (tr ++ tr') = (reports tr ++ reports tr')%list.
Proof. apply omap_app. Qed.

Lemma delay_before_floats (speed t prev : float) :
  PrimFloat.ltb 0 speed = true ->
  delay_before speed (NFloat t) (NFloat prev)
  = Ok (NFloat ((t - prev) / speed)).
Proof.
  intros Hs. unfold delay_before. cbn. rewrite Hs.
  unfold Num.truediv. cbn. by rewrite positive_speed_divides.
Qed.

Lemma busy_wait_ends (w : world) (sleep_start d : float) (n : nat) :
  (forall k, stop_at w k = false) ->
  (forall i, (n <= i)%nat ->
     Num.lt (NFloat (time_at w i - sleep_start)) (NFloat d) = false) ->
  forall (m : nat) (s : run), (n - ticks s <= m)%nat ->
  exists f0 s',
    (forall fuel, (f0 <= fuel)%nat ->
       busy_wait w fuel sleep_start (NFloat d) s = Done tt s')
    /\ self s' = self s
    /\ schedule (trace s') = schedule (trace s)
    /\ executed (trace s') = executed (trace s)
    /\ reports (trace s') = reports (trace s).
Proof.
  intros Hstop Hn. induction m as [|m IH]; intros s Hm.
  - exists 1%nat, (Run (self s) (S (ticks s)) (polls s) (trace s)).
    split; [|done]. intros [|fuel] Hf; [lia|].
    cbn [busy_wait]. unfold mbind, M_bind, bindM, time.
    rewrite Hn by lia. done.
  - destruct (Num.lt (NFloat (time_at w (ticks s) - sleep_start)) (NFloat d))
      eqn:Hlt.
    + assert (Hlt' : (ticks s < n)%nat).
      { destruct (Nat.lt_ge_cases (ticks s) n) as [H|H]; [done|].
        rewrite Hn in Hlt by done. discriminate. }
      destruct (IH (Run (self s) (S (S (ticks s))) (S (polls s))
                      (trace s
                       ++ [Sleep (Num.min001
                                    (Num.max0
                                       (NFloat (d - (time_at w (S (ticks s))
                                                     - sleep_start)))))])))
        as (f0 & s' & Hrun & Hself & Hsch & Hex & Hrep); [cbn; lia|].
      cbn [self trace] in Hself, Hsch, Hex, Hrep.
      rewrite schedule_app in Hsch. rewrite executed_app in Hex.
      rewrite reports_app in Hrep.
      cbn in Hsch, Hex, Hrep. rewrite app_nil_r in Hsch, Hex, Hrep.
      exists (S f0), s'. split; [|done].
      intros [|fuel] Hf; [lia|].
      cbn [busy_wait]. unfold mbind, M_bind, bindM, time, is_set.
      rewrite Hlt. cbn [ticks polls self trace]. rewrite Hstop.
      cbn [lift Num.sub Num.to_float mbind result_bind bind emit].
      cbn [ticks polls self trace]. apply Hrun. lia.
    + exists 1%nat, (Run (self s) (S (ticks s)) (polls s) (trace s)).
      split; [|done]. intros [|fuel] Hf; [lia|].
      cbn [busy_wait]. unfold mbind, M_bind, bindM, time.
      by rewrite Hlt.
Qed.

Lemma bind_Done {A B : Type} (m : M A) (k : A -> M B) (s s1 : run) (a : A) :
  m s = Done a s1 -> (m ≫= k) s = k a s1.
Proof. intros H. unfold mbind, M_bind, bindM. by rewrite H. Qed.

Ltac step_with H := erewrite bind_Done by (exact H); cbv beta.
Ltac step := erewrite bind_Done by reflexivity; cbv beta.
Ltac step_by tac := erewrite bind_Done; [|solve [tac]]; cbv beta.

Lemma execute_event_trace (w : world) (e : InputEvent.t) (s : run) :
  exists s1,
    (_execute_event w e s = Done tt s1
     \/ exists x, _execute_event w e s = Crashed x s1)
    /\ self s1 = self s /\ ticks s1 = ticks s /\ polls s1 = polls s
    /\ schedule (trace s1) = (schedule (trace s) ++ [Execute e])%list
    /\ executed (trace s1) = (executed (trace s) ++ [e])%list
    /\ reports (trace s1) = reports (trace s).
Proof.
  unfold _execute_event, inject, mbind, M_bind, bindM, emit, lift, ret.
  cbn [self ticks polls trace].
  destruct (InputEvent.event_type e);
    repeat (match goal with
            | |- context [match ?x with _ => _ end] =>
                lazymatch x with
                | context [match _ with _ => _ end] => fail
                | _ => destruct x
                end
            end; cbn [self ticks polls trace]).
  all: eexists; split;
    [first [left; reflexivity | right; eexists; reflexivity]|].
  all: cbn [self ticks polls trace];
    rewrite ?schedule_app, ?executed_app, ?reports_app; cbn;
    rewrite ?app_nil_r; auto 10.
Qed.

Lemma execute_step (w : world) (e : InputEvent.t) (s : run) :
  exists s',
    try_pass
      (_ ← _execute_event w e;
       played ← read _events_played;
       update (set_events_played (played + 1))) s = Done tt s'
    /\ settings (self s') = settings (self s)
    /\ ticks s' = ticks s /\ polls s' = polls s
    /\ schedule (trace s') = (schedule (trace s) ++ [Execute e])%list
    /\ executed (trace s') = (executed (trace s) ++ [e])%list
    /\ reports (trace s') = reports (trace s).
Proof.
  destruct (execute_event_trace w e s)
    as (s1 & [Hrun|[x Hrun]] & Hself & Hticks & Hpolls & Hsch & Hex & Hrep).
  - eexists. unfold try_pass, mbind, M_bind, bindM. rewrite Hrun.
    unfold read, update. split; [reflexivity|].
    cbn [self ticks polls trace]. unfold settings. cbn.
    rewrite Hself. auto 10.
  - exists s1. unfold try_pass, mbind, M_bind, bindM. rewrite Hrun.
    rewrite Hself. auto 10.
Qed.

Lemma duration_over_other_modes (w : world) (start_time : float) (s : run) :
  loop_mode (self s) <> DURATION ->
  duration_over w start_time s = Done false s.
Proof.
  intros Hmode. unfold duration_over, mbind, M_bind, bindM, read, ret.
  by destruct (loop_mode (self s)).
Qed.

Lemma play_event_step (w : world) (current_loop : Z) (max_loops : option Z)
  (start_time : float) (i : Z) (e : InputEvent.t) (t prev : float) (s : run) :
  (forall k, stop_at w k = false) ->
  loop_mode (self s) <> DURATION ->
  InputEvent.timestamp e = VFloat t ->
  PrimFloat.ltb 0 (speed_multiplier (self s)) = true ->
  let d := NFloat ((t - prev) / speed_multiplier (self s)) in
  (Num.gt0 d = true -> clock_passes w d) ->
  exists f0 s',
    (forall fuel, (f0 <= fuel)%nat ->
       play_event w fuel current_loop max_loops start_time i e (NFloat prev) s
       = Done (Continue, NFloat t) s')
    /\ settings (self s') = settings (self s)
    /\ schedule (trace s')
       = (schedule (trace s)
          ++ (if Num.gt0 d then [Wait d] else []) ++ [Execute e])%list
    /\ executed (trace s') = (executed (trace s) ++ [e])%list
    /\ reports (trace s')
       = (reports (trace s)
          ++ match _on_progress_callback (self s) with
             | Some _ =>
                 [(current_loop + 1,
                   match max_loops with Some n => n | None => -1 end,
                   i + 1)]
             | None => []
             end)%list.
Proof.
  intros Hstop Hmode Hts Hspeed d Hclock.
  assert (Hprogress : forall s0 : run,
            exists s',
              (progress ← read _on_progress_callback;
               _ ← match (progress : option callback) with
                   | Some _ =>
                       let total_loops :=
                         match max_loops with Some n => n | None => -1 end in
                       emit (Progress (current_loop + 1) total_loops (i + 1))
                   | None => ret tt
                   end;
               ret (Continue, NFloat t)) s0 = Done (Continue, NFloat t) s'
              /\ self s' = self s0
              /\ schedule (trace s') = schedule (trace s0)
              /\ executed (trace s') = executed (trace s0)
              /\ reports (trace s')
                 = (reports (trace s0)
                    ++ match _on_progress_callback (self s0) with
                       | Some _ =>
                           [(current_loop + 1,
                             match max_loops with Some n => n | None => -1 end,
                             i + 1)]
                       | None => []
                       end)%list).
  { intros s0. unfold mbind, M_bind, bindM, read, emit, ret.
    destruct (_on_progress_callback (self s0)); eexists;
      (split; [reflexivity|]); cbn [self trace];
      rewrite ?schedule_app, ?executed_app, ?reports_app; cbn;
      rewrite ?app_nil_r; auto. }
  assert (Htail : forall s0 : run,
            self s0 = self s ->
            exists s',
              (_ ← try_pass
                     (_ ← _execute_event w e;
                      played ← read _events_played;
                      update (set_events_played (played + 1)));
               progress ← read _on_progress_callback;
               _ ← match (progress : option callback) with
                   | Some _ =>
                       let total_loops :=
                         match max_loops with Some n => n | None => -1 end in
                       emit (Progress (current_loop + 1) total_loops (i + 1))
                   | None => ret tt
                   end;
               ret (Continue, NFloat t)) s0 = Done (Continue, NFloat t) s'
              /\ settings (self s') = settings (self s)
              /\ schedule (trace s')
                 = (schedule (trace s0) ++ [Execute e])%list
              /\ executed (trace s') = (executed (trace s0) ++ [e])%list
              /\ reports (trace s')
                 = (reports (trace s0)
                    ++ match _on_progress_callback (self s) with
                       | Some _ =>
                           [(current_loop + 1,
                             match max_loops with Some n => n | None => -1 end,
                             i + 1)]
                       | None => []
                       end)%list).
  { intros s0 Hs0.
    destruct (execute_step w e s0)
      as (s1 & Hrun & Hset & _ & _ & Hsch & Hex & Hrep).
    destruct (Hprogress s1) as (s2 & Hrun2 & Hself2 & Hsch2 & Hex2 & Hrep2).
    assert (Hcb : _on_progress_callback (self s1)
                  = _on_progress_callback (self s)).
    { rewrite Hs0 in Hset. unfold settings in Hset. by injection Hset. }
    exists s2. step_with Hrun.
    split; [exact Hrun2|].
    rewrite Hself2, Hsch2, Hex2, Hrep2, Hrep, Hcb, Hset, Hs0. auto. }
  destruct (Num.gt0 d) eqn:Hgt.
  - destruct (Hclock eq_refl (ticks s)) as [n Hn].
    destruct (busy_wait_ends w (time_at w (ticks s))
                ((t - prev) / speed_multiplier (self s)) n Hstop Hn
                (n - S (ticks s))
                (Run (self s) (S (ticks s)) (S (polls s))
                   (trace s ++ [Wait d])))
      as (f0 & s1 & Hrun1 & Hself1 & Hsch1 & Hex1 & Hrep1); [reflexivity|].
    cbn [self trace] in Hself1, Hsch1, Hex1, Hrep1.
    destruct (Htail (Run (self s1) (ticks s1) (S (polls s1)) (trace s1))
                Hself1) as (s2 & Hrun2 & Hset2 & Hsch2 & Hex2 & Hrep2).
    cbn [trace] in Hsch2, Hex2, Hrep2.
    exists f0, s2. split.
    + intros fuel Hfuel. specialize (Hrun1 fuel Hfuel).
      unfold play_event. step. rewrite Hstop.
      step_by ltac:(apply duration_over_other_modes; exact Hmode).
      rewrite Hts. cbn [Num.as_number]. step. step. cbn [self].
      rewrite delay_before_floats by exact Hspeed. step. fold d. rewrite Hgt.
      erewrite (bind_Done (_ ≫= _)).
      2:{ step. step. cbn [self ticks polls trace]. step_with Hrun1.
          unfold is_set. rewrite Hstop. reflexivity. }
      cbv beta. exact Hrun2.
    + rewrite Hsch2, Hex2, Hrep2, Hsch1, Hex1, Hrep1, schedule_app,
        executed_app, reports_app.
      cbn. rewrite !app_nil_r, <- !app_assoc. auto.
  - destruct (Htail (Run (self s) (ticks s) (S (polls s)) (trace s))
                eq_refl) as (s2 & Hrun2 & Hset2 & Hsch2 & Hex2 & Hrep2).
    cbn [trace] in Hsch2, Hex2, Hrep2.
    exists 0%nat, s2. split.
    + intros fuel _. unfold play_event. step. rewrite Hstop.
      step_by ltac:(apply duration_over_other_modes; exact Hmode).
      rewrite Hts. cbn [Num.as_number]. step. step. cbn [self].
      rewrite delay_before_floats by exact Hspeed. step. fold d. rewrite Hgt.
      step. exact Hrun2.
    + rewrite Hsch2, Hex2, Hrep2. auto.
Qed.

Lemma for_events_pass (w : world) (current_loop : Z) (max_loops : option Z)
  (start_time : float) (mode : LoopMode) (value : number) (speed : float)
  (progress complete : option callback) :
  (forall k, stop_at w k = false) ->
  mode <> DURATION ->
  PrimFloat.ltb 0 speed = true ->
  forall (events : list InputEvent.t) (i : Z) (prev : float) (s : run),
  settings (self s) = (mode, value, speed, progress, complete) ->
  forallb float_timestamp events = true ->
  (forall d, In (Wait d) (pass_schedule speed prev events) ->
             clock_passes w d) ->
  exists f0 s',
    (forall fuel, (f0 <= fuel)%nat ->
       for_events w fuel current_loop max_loops start_time i events
         (NFloat prev) s = Done tt s')
    /\ settings (self s') = settings (self s)
    /\ schedule (trace s')
       = (schedule (trace s) ++ pass_schedule speed prev events)%list
    /\ executed (trace s') = (executed (trace s) ++ events)%list
    /\ reports (trace s')
       = (reports (trace s)
          ++ match progress with
             | Some _ =>
                 map (fun j =>
                        (current_loop + 1,
                         match max_loops with Some n => n | None => -1 end,
                         j))
                   (seqZ (i + 1) (Z.of_nat (length events)))
             | None => []
             end)%list.
Proof.
  intros Hstop Hmode Hspeed.
  induction events as [|e events IH]; intros i prev s Hset Hfloat Hclock.
  - exists 0%nat, s. cbn. rewrite !app_nil_r.
    destruct progress; rewrite ?app_nil_r; auto.
  - cbn [forallb] in Hfloat. apply andb_true_iff in Hfloat as [Hts Hfloat].
    unfold float_timestamp in Hts.
    destruct (InputEvent.timestamp e) as [| | |t| | |] eqn:Et;
      try discriminate.
    cbn [pass_schedule] in Hclock |- *. rewrite Et in Hclock |- *.
    assert (Hs : loop_mode (self s) = mode
                 /\ speed_multiplier (self s) = speed
                 /\ _on_progress_callback (self s) = progress).
    { unfold settings in Hset. by injection Hset. }
    destruct Hs as (Hs1 & Hs2 & Hs3).
    destruct (play_event_step w current_loop max_loops start_time i e t prev s
                Hstop) as (f1 & s1 & Hrun1 & Hset1 & Hsch1 & Hex1 & Hrep1).
    + by rewrite Hs1.
    + exact Et.
    + by rewrite Hs2.
    + rewrite Hs2. intros Hgt. apply Hclock. rewrite Hgt. by left.
    + rewrite Hs2 in Hsch1. rewrite Hs3 in Hrep1.
      destruct (IH (i + 1) t s1)
        as (f2 & s2 & Hrun2 & Hset2 & Hsch2 & Hex2 & Hrep2).
      * by rewrite Hset1.
      * exact Hfloat.
      * intros d Hd. apply Hclock. apply in_or_app. right. by right.
      * exists (Nat.max f1 f2), s2. split; [|split; [|split; [|split]]].
        -- intros fuel Hfuel. cbn [for_events].
           erewrite bind_Done by (apply Hrun1; lia). cbv beta iota.
           apply Hrun2. lia.
        -- by rewrite Hset2.
        -- rewrite Hsch2, Hsch1, <- !app_assoc. reflexivity.
        -- rewrite Hex2, Hex1, <- !app_assoc. reflexivity.
        -- rewrite Hrep2, Hrep1, <- !app_assoc. f_equal.
           destruct progress; [|reflexivity].
           cbn [length]. rewrite Nat2Z.inj_succ, (seqZ_cons (i + 1)) by lia.
           cbn [map app]. by rewrite Z.pred_succ.
Qed.

Lemma while_loops_passes (w : world) (start_time : float) (mode : LoopMode)
  (value : number) (speed : float) (progress complete : option callback)
  (events : list InputEvent.t) (n : Z) :
  (forall k, stop_at w k = false) ->
  mode <> DURATION ->
  PrimFloat.ltb 0 speed = true ->
  forallb float_timestamp events = true ->
  (forall d, In (Wait d) (pass_schedule speed 0 events) -> clock_passes w d) ->
  forall (k : nat) (current_loop : Z) (s : run),
  Z.to_nat (n - current_loop) = k ->
  settings (self s) = (mode, value, speed, progress, complete) ->
  exists f0 s',
    (forall fuel, (f0 <= fuel)%nat ->
       while_loops w fuel (Some n) start_time events current_loop s
       = Done tt s')
    /\ settings (self s') = settings (self s)
    /\ schedule (trace s')
       = (schedule (trace s)
          ++ concat (repeat (pass_schedule speed 0 events) k))%list
    /\ executed (trace s')
       = (executed (trace s) ++ concat (repeat events k))%list
    /\ _loops_completed (self s')
       = match k with
         | O => _loops_completed (self s)
         | S _ => n
         end
    /\ reports (trace s')
       = (reports (trace s)
          ++ match progress with
             | Some _ =>
                 flat_map
                   (fun c =>
                      map (fun j => (c, n, j))
                        (seqZ 1 (Z.of_nat (length events))))
                   (seqZ (current_loop + 1) (Z.of_nat k))
             | None => []
             end)%list.
Proof.
  intros Hstop Hmode Hspeed Hfloat Hclock.
  induction k as [|k IH]; intros current_loop s Hk Hset.
  - exists 1%nat, s. cbn. rewrite !app_nil_r.
    split; [|destruct progress; rewrite ?app_nil_r; auto 10].
    intros [|fuel] Hfuel; [lia|]. cbn [while_loops]. unfold below.
    by rewrite (proj2 (Z.ltb_ge current_loop n)) by lia.
  - set (s0 := Run (set_current_loop (current_loop + 1) (self s)) (ticks s)
                 (S (polls s)) (trace s)).
    destruct (for_events_pass w current_loop (Some n) start_time mode value
                speed progress complete Hstop Hmode Hspeed events 0 0%float
                s0 Hset Hfloat Hclock)
      as (f1 & s1 & Hrun1 & Hset1 & Hsch1 & Hex1 & Hrep1).
    set (s2 := Run (set_loops_completed (current_loop + 1) (self s1))
                 (ticks s1) (S (polls s1)) (trace s1)).
    destruct (IH (current_loop + 1) s2) as
      (f2 & s3 & Hrun3 & Hset3 & Hsch3 & Hex3 & Hloops3 & Hrep3).
    + lia.
    + transitivity (settings (self s1)); [reflexivity|].
      rewrite Hset1. exact Hset.
    + assert (Hm : loop_mode (self s) = mode).
      { unfold settings in Hset. by injection Hset. }
      exists (S (Nat.max f1 f2)), s3.
      split; [|split; [|split; [|split; [|split]]]].
      * intros [|fuel] Hfuel; [lia|]. cbn [while_loops]. unfold below.
        rewrite (proj2 (Z.ltb_lt current_loop n)) by lia.
        step. step. rewrite Hstop.
        step_by ltac:(apply duration_over_other_modes; cbn; rewrite Hm;
                      exact Hmode).
        cbn [self ticks polls trace]. fold s0.
        erewrite bind_Done by (apply Hrun1; lia). cbv beta.
        step. rewrite Hstop. cbn [negb]. step.
        cbn [self ticks polls trace]. fold s2. apply Hrun3. lia.
      * rewrite Hset3. transitivity (settings (self s1)); [reflexivity|].
        rewrite Hset1. reflexivity.
      * rewrite Hsch3. unfold s2. cbn [trace]. rewrite Hsch1.
        unfold s0. cbn [trace repeat concat]. by rewrite <- !app_assoc.
      * rewrite Hex3. unfold s2. cbn [trace]. rewrite Hex1.
        unfold s0. cbn [trace repeat concat]. by rewrite <- !app_assoc.
      * rewrite Hloops3. destruct k; [|reflexivity].
        unfold s2. cbn. lia.
      * rewrite Hrep3. unfold s2. cbn [trace]. rewrite Hrep1.
        unfold s0. cbn [trace]. rewrite <- !app_assoc. f_equal.
        destruct progress; [|reflexivity].
        rewrite Nat2Z.inj_succ, (seqZ_cons (current_loop + 1)) by lia.
        cbn [flat_map]. rewrite Z.pred_succ. reflexivity.
Qed.

Lemma finish_run (s : run) :
  exists r,
    finish s = Done tt r
    /\ self r = set_is_playing false (self s)
    /\ schedule (trace r) = schedule (trace s)
    /\ executed (trace r) = executed (trace s)
    /\ reports (trace r) = reports (trace s).
Proof.
  unfold finish. step. step.
  cbn [self set_is_playing _on_complete_callback].
  destruct (_on_complete_callback (self s)); eexists;
    (split; [reflexivity|]); cbn [self trace];
    rewrite ?schedule_app, ?executed_app, ?reports_app; cbn;
    rewrite ?app_nil_r; auto.
Qed.

Lemma replay_run (w : world) (p : t) (session : RecordingSession.t) (n : Z) :
  (forall k, stop_at w k = false) ->
  _session p = Some session ->
  RecordingSession.events session <> [] ->
  forallb float_timestamp (RecordingSession.events session) = true ->
  (loop_mode p = SINGLE /\ n = 1)
  \/ (loop_mode p = COUNT /\ Num.int (loop_value p) = Ok n) ->
  PrimFloat.ltb 0 (speed_multiplier p) = true ->
  (forall d,
     In (Wait d)
       (pass_schedule (speed_multiplier p) 0 (RecordingSession.events session))
     -> clock_passes w d) ->
  exists fuel0 r,
    (forall fuel, (fuel0 <= fuel)%nat -> replay w fuel p = Done tt r)
    /\ schedule (trace r)
       = concat (repeat (pass_schedule (speed_multiplier p) 0
                           (RecordingSession.events session)) (Z.to_nat n))
    /\ executed (trace r)
       = concat (repeat (RecordingSession.events session) (Z.to_nat n))
    /\ is_playing (self r) = false
    /\ _loops_completed (self r) = Z.max 0 n
    /\ reports (trace r)
       = match _on_progress_callback p with
         | Some _ =>
             flat_map
               (fun c =>
                  map (fun j => (c, n, j))
                    (seqZ 1 (Z.of_nat
                               (length (RecordingSession.events session)))))
               (seqZ 1 n)
         | None => []
         end.
Proof.
  intros Hstop Hsession Hevents Hfloat Hloop Hspeed Hclock.
  set (s0 := Run (set_current_loop 1
                    (set_events_played 0
                       (set_loops_completed 0
                          (set_start_time (time_at w 0) p)))) 1 0 []).
  assert (Hmode : loop_mode p <> DURATION).
  { destruct Hloop as [[-> _]|[-> _]]; discriminate. }
  destruct (while_loops_passes w (time_at w 0) (loop_mode p) (loop_value p)
              (speed_multiplier p) (_on_progress_callback p)
              (_on_complete_callback p) (RecordingSession.events session) n
              Hstop Hmode Hspeed Hfloat Hclock (Z.to_nat (n - 0)) 0 s0
              eq_refl eq_refl)
    as (f0 & s1 & Hrun1 & Hset1 & Hsch1 & Hex1 & Hloops1 & Hrep1).
  destruct (finish_run s1) as (r & Hrun & Hself & Hsch & Hex & Hrep).
  rewrite Z.sub_0_r in *.
  exists f0, r. split; [|split; [|split; [|split; [|split]]]].
  - intros fuel Hfuel. unfold replay, _playback_loop. step. cbn [self].
    rewrite Hsession.
    destruct (RecordingSession.events session) as [|e es] eqn:Ees; [done|].
    step. cbn [self].
    erewrite (bind_Done (match loop_mode p with SINGLE => _ | _ => _ end)
                _ _ _ (Some n)).
    2:{ destruct Hloop as [[-> ->]|[-> Hint]]; [reflexivity|].
        step. cbn [self]. rewrite Hint. step. reflexivity. }
    step. step. step. step. step. cbn [self ticks polls trace]. fold s0.
    erewrite bind_Done by (apply Hrun1; exact Hfuel).
    exact Hrun.
  - by rewrite Hsch, Hsch1.
  - by rewrite Hex, Hex1.
  - by rewrite Hself.
  - rewrite Hself. cbn [set_is_playing _loops_completed]. rewrite Hloops1.
    destruct (Z.to_nat n) eqn:En; [cbn; lia | lia].
  - rewrite Hrep, Hrep1. cbn [trace reports omap app].
    change (0 + 1) with 1.
    destruct (_on_progress_callback p); [|reflexivity].
    destruct (Z.le_gt_cases n 0) as [Hn|Hn].
    + rewrite (Z2Nat.nonpos n) by exact Hn. change (Z.of_nat 0) with 0.
      rewrite (seqZ_nil 1 0) by lia. rewrite (seqZ_nil 1 n) by lia.
      reflexivity.
    + by rewrite Z2Nat.id by lia.
Qed.

End Replay.

(** X17: the passes of a replay.  With the stop flag never set, a session
    of events with float timestamps, a positive speed and a clock that
    gets past each delay of a pass, the replay thread of a player in mode
    [SINGLE] (one pass) or [COUNT] (as many passes as [int(loop_value)]
    says; none when that is not positive) returns, given enough fuel: it
    has called [_execute_event] on each event of the session, in order,
    once per pass, which makes passes times events calls, and it leaves the
    player idle with [_loops_completed] at the number of passes. *)
Theorem replay_plays_every_pass (w : Player.world) (p : Player.t)
  (session : RecordingSession.t) (n : Z) :
  (forall k, Player.stop_at w k = false) ->
  Player._session p = Some session ->
  RecordingSession.events session <> [] ->
  forallb Player.float_timestamp (RecordingSession.events session) = true ->
  (Player.loop_mode p = Player.SINGLE /\ n = 1)
  \/ (Player.loop_mode p = Player.COUNT
      /\ Num.int (Player.loop_value p) = Ok n) ->
  PrimFloat.ltb 0 (Player.speed_multiplier p) = true ->
  (forall d,
     In (Player.Wait d)
       (Player.pass_schedule (Player.speed_multiplier p) 0
          (RecordingSession.events session))
     -> Player.clock_passes w d) ->
  exists fuel0 r,
    (forall fuel, (fuel0 <= fuel)%nat ->
       Player.replay w fuel p = Player.Done tt r)
    /\ Player.executed (Player.trace r)
       = concat (repeat (RecordingSession.events session) (Z.to_nat n))
    /\ length (Player.executed (Player.trace r))
       = (Z.to_nat n * length (RecordingSession.events session))%nat
    /\ Player.is_playing (Player.self r) = false
    /\ Player._loops_completed (Player.self r) = Z.max 0 n.
Proof.
  intros Hstop Hsession Hevents Hfloat Hloop Hspeed Hclock.
  destruct (replay_run w p session n Hstop Hsession Hevents Hfloat Hloop
              Hspeed Hclock)
    as (fuel0 & r & Hrun & _ & Hex & Hidle & Hloops & _).
  exists fuel0, r. repeat split; try done.
  rewrite Hex. clear. induction (Z.to_nat n) as [|k IH]; [reflexivity|].
  cbn [repeat concat]. rewrite length_app, IH. reflexivity.
Qed.


(** A clock that reads 0.0 three times and is past every deadline from
    then on *)
Lemma scripted_clock_passes (d : float) (stop_at : nat -> bool)
  (controller : Player.call -> option exn) (Key_member : string -> bool) :
  PrimFloat.ltb infinity d = false ->
  Player.clock_passes
    {| Player.time_at := fun i => if (i <? 3)%nat then 0%float else infinity;
       Player.stop_at := stop_at;
       Player.controller := controller;
       Player.Key_member := Key_member |}
    (NFloat d).
Proof.
  intros Hd k. exists 3%nat. intros i Hi. cbn [Player.time_at].
  destruct (Nat.ltb_spec i 3); [lia|].
  destruct (k <? 3)%nat; [exact Hd|].
  change (infinity - infinity)%float with nan. cbn [Num.lt].
  rewrite FloatAxioms.ltb_spec. reflexivity.
Qed.

(** A move at 0.0 and a key press at 0.5, replayed once at speed 1.0 *)
Lemma single_pass_example :
  let w := {| Player.time_at :=
                fun i => if (i <? 3)%nat then 0%float else infinity;
              Player.stop_at := fun _ => false;
              Player.controller := fun _ => None;
              Player.Key_member := fun _ => false |} in
  let session :=
    RecordingSession.mk
      [ InputEvent.mk (VFloat 0) EventType.MOUSE_MOVE (VInt 100) (VInt 200)
          VNone VNone VNone VNone VNone;
        InputEvent.mk (VFloat 0.5) EventType.KEY_PRESS VNone VNone VNone
          (VBool true) (VStr "a") VNone VNone ]
      (VStr "2024-01-01T00:00:00") (VBool true) (VBool true) (VStr "1.0.0")
      (VStr "demo") (VStr "") in
  let p := snd (Player.play (Some session) (Player.init None None)) in
  exists fuel0 r,
    (forall fuel, (fuel0 <= fuel)%nat ->
       Player.replay w fuel p = Player.Done tt r)
    /\ Player.executed (Player.trace r)
       = concat (repeat (RecordingSession.events session) (Z.to_nat 1))
    /\ length (Player.executed (Player.trace r))
       = (Z.to_nat 1 * length (RecordingSession.events session))%nat
    /\ Player.is_playing (Player.self r) = false
    /\ Player._loops_completed (Player.self r) = Z.max 0 1.
Proof.
  intros w session p.
  apply (replay_plays_every_pass w p session 1); try reflexivity.
  - discriminate.
  - by left.
  - intros d Hd. cbn in Hd.
    destruct Hd as [Hd|[Hd|[Hd|[]]]]; try discriminate.
    injection Hd as <-. by apply scripted_clock_passes.
Defined.


(** ** The settings of the player *)

Section Speed.

Lemma ltb_leb (x y : float) :
  PrimFloat.ltb x y = true -> PrimFloat.leb x y = true.
Proof.
  rewrite FloatAxioms.ltb_spec, FloatAxioms.leb_spec.
  unfold SFltb, SFleb. by destruct (SFcompare _ _) as [[]|].
Qed.

Lemma above_a_tenth_is_positive (x : float) :
  PrimFloat.ltb 0.1 x = true -> PrimFloat.ltb 0 x = true.
Proof.
  rewrite !FloatAxioms.ltb_spec.
  set (tenth := Prim2SF 0.1). vm_compute in tenth. subst tenth.
  change (Prim2SF 0) with (S754_zero false).
  destruct (Prim2SF x) as [sg|sg| |sg m e]; try discriminate.
  - by destruct sg.
  - by destruct sg.
Qed.

End Speed.

(** X19: [set_speed] clamps.  Whatever float it is given, infinities and
    NaN included, the speed it stores lies between 0.1 and 10.0 and so is
    positive, which is what makes the replay divide every delay by it; a
    multiplier strictly inside the range is stored as it is, one that is
    not below 10.0, or is NaN, becomes 10.0, and one that is not above 0.1
    becomes 0.1. *)
Theorem set_speed_clamps (multiplier : float) (p : Player.t) :
  let speed := Player.speed_multiplier (Player.set_speed multiplier p) in
  PrimFloat.leb 0.1 speed = true
  /\ PrimFloat.leb speed 10 = true
  /\ PrimFloat.ltb 0 speed = true
  /\ speed = (if PrimFloat.ltb multiplier 10
              then if PrimFloat.ltb 0.1 multiplier then multiplier
                   else 0.1%float
              else 10%float)
  /\ Player.settings (Player.set_speed multiplier p)
     = (Player.loop_mode p, Player.loop_value p, speed,
        Player._on_progress_callback p, Player._on_complete_callback p).
Proof.
  unfold Player.set_speed. cbn [Player.speed_multiplier].
  destruct (PrimFloat.ltb multiplier 10) eqn:Hhigh.
  - destruct (PrimFloat.ltb 0.1 multiplier) eqn:Hlow.
    + repeat split; auto using ltb_leb, above_a_tenth_is_positive.
    + repeat split.
  - repeat split.
Qed.

(** ** Replays that do not play *)

Section Aborted.

Import Player.

Ltac step := erewrite bind_Done by reflexivity; cbv beta.

Lemma bind_Crashed {A B : Type} (m : M A) (k : A -> M B) (s s1 : run)
  (x : exn) :
  m s = Crashed x s1 -> (m ≫= k) s = Crashed x s1.
Proof. intros H. unfold mbind, M_bind, bindM. by rewrite H. Qed.

(** The start of [_playback_loop] on a session with events, up to the
    [while] loop *)
Lemma playback_loop_enters (w : world) (fuel : nat) (p : t)
  (session : RecordingSession.t) (max_loops : option Z) :
  _session p = Some session ->
  RecordingSession.events session <> [] ->
  match loop_mode p with
  | SINGLE => max_loops = Some 1
  | COUNT => exists n, Num.int (loop_value p) = Ok n /\ max_loops = Some n
  | DURATION | INFINITE => max_loops = None
  end ->
  replay w fuel p
  = (_ ← while_loops w fuel max_loops (time_at w 0)
           (RecordingSession.events session) 0;
     finish)
      (Run (set_current_loop 1
              (set_events_played 0
                 (set_loops_completed 0 (set_start_time (time_at w 0) p))))
           1 0 []).
Proof.
  intros Hsession Hevents Hloops. unfold replay, _playback_loop. step.
  cbn [self]. rewrite Hsession.
  destruct (RecordingSession.events session) as [|e es] eqn:Ees; [done|].
  step. cbn [self].
  erewrite (bind_Done (match loop_mode p with SINGLE => _ | _ => _ end)
              _ _ _ max_loops).
  2:{ destruct (loop_mode p); try (by rewrite Hloops).
      destruct Hloops as (n & Hint & ->).
      step. cbn [self]. rewrite Hint. step. reflexivity. }
  step. step. step. step. step. reflexivity.
Qed.

Lemma cancelled_run (w : world) (fuel : nat)
  (session : RecordingSession.t) (max_loops : option Z) (s0 : run) :
  stop_at w (polls s0) = true ->
  exists r,
    (_ ← while_loops w (S fuel) max_loops (time_at w 0)
           (RecordingSession.events session) 0;
     finish) s0 = Done tt r
    /\ trace r = (trace s0
                  ++ match _on_complete_callback (self s0) with
                     | Some _ => [Complete]
                     | None => []
                     end)%list
    /\ is_playing (self r) = false
    /\ _loops_completed (self r) = _loops_completed (self s0)
    /\ _events_played (self r) = _events_played (self s0).
Proof.
  intros Hstop. cbn [while_loops].
  destruct (below 0 max_loops).
  - erewrite (bind_Done (_ ≫= _)).
    2:{ step. step. cbn [polls]. rewrite Hstop. reflexivity. }
    unfold finish. step. step. cbn.
    destruct (_on_complete_callback (self s0)); eexists;
      (split; [reflexivity|]); cbn; rewrite ?app_nil_r; auto.
  - step. unfold finish. step. step. cbn.
    destruct (_on_complete_callback (self s0)); eexists;
      (split; [reflexivity|]); cbn; rewrite ?app_nil_r; auto.
Qed.

Lemma bad_timestamp_run (w : world) (fuel : nat) (max_loops : option Z)
  (e : InputEvent.t) (rest : list InputEvent.t) (s0 : run) :
  stop_at w (polls s0) = false ->
  stop_at w (S (polls s0)) = false ->
  loop_mode (self s0) <> DURATION ->
  below 0 max_loops = true ->
  Num.as_number (InputEvent.timestamp e) = Raise TypeError ->
  (_ ← while_loops w (S fuel) max_loops (time_at w 0) (e :: rest) 0;
   finish) s0
  = Crashed TypeError
      (Run (set_current_loop 1 (self s0)) (ticks s0) (S (S (polls s0)))
         (trace s0)).
Proof.
  intros Hstop0 Hstop1 Hmode Hbelow Hts.
  apply bind_Crashed. cbn [while_loops]. rewrite Hbelow.
  step. step. cbn [polls]. rewrite Hstop0.
  erewrite bind_Done
    by (apply duration_over_other_modes; cbn; exact Hmode).
  cbv beta. apply bind_Crashed. cbn [for_events]. apply bind_Crashed.
  unfold play_event. step. cbn [polls]. rewrite Hstop1.
  erewrite bind_Done
    by (apply duration_over_other_modes; cbn; exact Hmode).
  cbv beta. apply bind_Crashed. by rewrite Hts.
Qed.

End Aborted.

(** X20: a replay cancelled at once.  When the stop flag is already set
    at the thread's first look at it, the thread executes and waits for
    nothing, whatever the mode, the clock and the session: it leaves the
    player idle with both counters at zero and calls the completion
    callback, when there is one, as its only action. *)
Theorem cancelled_replay_plays_nothing (w : Player.world) (fuel : nat)
  (p : Player.t) (session : RecordingSession.t) :
  Player.stop_at w 0 = true ->
  Player._session p = Some session ->
  RecordingSession.events session <> [] ->
  (Player.loop_mode p = Player.COUNT ->
   exists n, Num.int (Player.loop_value p) = Ok n) ->
  exists r,
    Player.replay w (S fuel) p = Player.Done tt r
    /\ Player.trace r = match Player._on_complete_callback p with
                        | Some _ => [Player.Complete]
                        | None => []
                        end
    /\ Player.is_playing (Player.self r) = false
    /\ Player._loops_completed (Player.self r) = 0
    /\ Player._events_played (Player.self r) = 0.
Proof.
  intros Hstop Hsession Hevents Hcount.
  assert (Hloops : exists max_loops,
            match Player.loop_mode p with
            | Player.SINGLE => max_loops = Some 1
            | Player.COUNT =>
                exists n, Num.int (Player.loop_value p) = Ok n
                          /\ max_loops = Some n
            | Player.DURATION | Player.INFINITE => max_loops = None
            end).
  { destruct (Player.loop_mode p); try by eexists.
    destruct (Hcount eq_refl) as [n Hn]. exists (Some n), n. done. }
  destruct Hloops as [max_loops Hloops].
  rewrite (playback_loop_enters w (S fuel) p session max_loops Hsession
             Hevents Hloops).
  destruct (cancelled_run w fuel session max_loops
              (Player.Run
                 (Player.set_current_loop 1
                    (Player.set_events_played 0
                       (Player.set_loops_completed 0
                          (Player.set_start_time (Player.time_at w 0) p))))
                 1 0 []) Hstop)
    as (r & Hrun & Htrace & Hidle & Hloops' & Hplayed).
  exists r. rewrite Hrun, Htrace, Hidle, Hloops', Hplayed. by cbn.
Qed.

(** A player with a completion callback whose replay is cancelled at
    once *)
Lemma cancelled_at_once :
  let w := {| Player.time_at := fun _ => 0%float;
              Player.stop_at := fun _ => true;
              Player.controller := fun _ => None;
              Player.Key_member := fun _ => false |} in
  let session :=
    RecordingSession.mk
      [ InputEvent.mk (VFloat 0) EventType.MOUSE_MOVE (VInt 100) (VInt 200)
          VNone VNone VNone VNone VNone ]
      (VStr "2024-01-01T00:00:00") (VBool true) (VBool true) (VStr "1.0.0")
      (VStr "demo") (VStr "") in
  let p := snd (Player.play (Some session) (Player.init None (Some 5%nat))) in
  exists r,
    Player.replay w 1 p = Player.Done tt r
    /\ Player.trace r = [Player.Complete]
    /\ Player.is_playing (Player.self r) = false
    /\ Player._loops_completed (Player.self r) = 0
    /\ Player._events_played (Player.self r) = 0.
Proof.
  intros w session p.
  apply (cancelled_replay_plays_nothing w 0 p session); try reflexivity.
  - discriminate.
  - discriminate.
Defined.

(** X21: an event whose timestamp is not a number, which
    [InputEvent.from_dict] lets through, kills the replay thread.  With
    the flag not set and at least one pass to play, the thread dies of a
    [TypeError] at the first event, before it executes or waits for
    anything; nothing catches the exception, so the completion callback is
    not called and [is_playing] stays as [play] set it. *)
Theorem bad_timestamp_kills_replay (w : Player.world) (fuel : nat)
  (p : Player.t) (session : RecordingSession.t) (e : InputEvent.t)
  (rest : list InputEvent.t) :
  Player.stop_at w 0 = false ->
  Player.stop_at w 1%nat = false ->
  Player._session p = Some session ->
  RecordingSession.events session = e :: rest ->
  Num.as_number (InputEvent.timestamp e) = Raise TypeError ->
  Player.loop_mode p = Player.SINGLE
  \/ Player.loop_mode p = Player.INFINITE
  \/ (Player.loop_mode p = Player.COUNT
      /\ exists n, Num.int (Player.loop_value p) = Ok n /\ 0 < n) ->
  exists r,
    Player.replay w (S fuel) p = Player.Crashed TypeError r
    /\ Player.trace r = []
    /\ Player.is_playing (Player.self r) = Player.is_playing p.
Proof.
  intros Hstop0 Hstop1 Hsession Hevents Hts Hmode.
  assert (Hloops : exists max_loops,
            match Player.loop_mode p with
            | Player.SINGLE => max_loops = Some 1
            | Player.COUNT =>
                exists n, Num.int (Player.loop_value p) = Ok n
                          /\ max_loops = Some n
            | Player.DURATION | Player.INFINITE => max_loops = None
            end
            /\ Player.below 0 max_loops = true
            /\ Player.loop_mode p <> Player.DURATION).
  { destruct Hmode as [->|[->|[-> (n & Hn & Hpos)]]].
    - by exists (Some 1).
    - by exists None.
    - exists (Some n). split; [by exists n|]. split; [|done].
      cbn. by apply Z.ltb_lt. }
  destruct Hloops as (max_loops & Hloops & Hbelow & Hnot).
  rewrite (playback_loop_enters w (S fuel) p session max_loops Hsession)
    by (by rewrite ?Hevents).
  rewrite Hevents.
  rewrite (bad_timestamp_run w fuel max_loops e rest) by done.
  eexists. split; [reflexivity|]. split; reflexivity.
Qed.

(** The event that [from_dict] builds from a dictionary whose timestamp
    is the string "soon": replaying it kills the thread. *)
Lemma timestamp_soon_kills_replay :
  let w := {| Player.time_at := fun _ => 0%float;
              Player.stop_at := fun _ => false;
              Player.controller := fun _ => None;
              Player.Key_member := fun _ => false |} in
  let e := InputEvent.mk (VStr "soon") EventType.KEY_PRESS VNone VNone VNone
             VNone (VStr "a") VNone VNone in
  let session :=
    RecordingSession.mk [e]
      (VStr "2024-01-01T00:00:00") (VBool true) (VBool true) (VStr "1.0.0")
      (VStr "demo") (VStr "") in
  let p := snd (Player.play (Some session) (Player.init None None)) in
  InputEvent.from_dict
    (VDict (<["t" := VStr "soon"]>
           (<["type" := VStr "KEY_PRESS"]> (<["key" := VStr "a"]> ∅))))
  = Ok e
  /\ exists r,
       Player.replay w 1 p = Player.Crashed TypeError r
       /\ Player.trace r = []
       /\ Player.is_playing (Player.self r) = true.
Proof.
  intros w e session p. split; [by vm_compute|].
  apply (bad_timestamp_kills_replay w 0 p session e []); try reflexivity.
  by left.
Defined.

(** X22: stopping and starting again.  While a replay is on, [play] is
    refused; [stop] sets the stop flag and leaves the player idle, and a
    second [stop] changes nothing; [play] is then accepted again: it
    clears the flag, stores the session and starts one more thread. *)
Theorem stop_then_play (p : Player.t) (session : RecordingSession.t) :
  Player.is_playing p = true ->
  RecordingSession.events session <> [] ->
  let p1 := Player.stop p in
  let p2 := snd (Player.play (Some session) p1) in
  Player.play (Some session) p = (false, p)
  /\ Player.is_playing p1 = false
  /\ Player._stop_flag p1 = true
  /\ Player.stop p1 = p1
  /\ fst (Player.play (Some session) p1) = true
  /\ Player.is_playing p2 = true
  /\ Player._stop_flag p2 = false
  /\ Player._session p2 = Some session
  /\ Player.threads_started p2 = S (Player.threads_started p)
  /\ Player.settings p2 = Player.settings p.
Proof.
  intros Hplaying Hevents. destruct p. cbn in Hplaying. subst.
  unfold Player.play, Player.stop. cbn.
  destruct (RecordingSession.events session); [done|]. cbn. auto 12.
Qed.

Lemma stop_then_play_example :
  let session :=
    RecordingSession.mk
      [ InputEvent.mk (VFloat 0) EventType.MOUSE_MOVE (VInt 100) (VInt 200)
          VNone VNone VNone VNone VNone ]
      (VStr "2024-01-01T00:00:00") (VBool true) (VBool true) (VStr "1.0.0")
      (VStr "demo") (VStr "") in
  let p := snd (Player.play (Some session) (Player.init None None)) in
  Player.threads_started
    (snd (Player.play (Some session) (Player.stop p))) = 2%nat.
Proof.
  intros session p.
  destruct (stop_then_play p session eq_refl)
    as (_ & _ & _ & _ & _ & _ & _ & _ & Hthreads & _); [discriminate|].
  exact Hthreads.
Defined.

(** ** From the recorder to the player *)

Section KeyRoundTrip.


End KeyRoundTrip.



(** ** A replay without end *)

Section Endless.

Import Player.

Ltac step := erewrite bind_Done by reflexivity; cbv beta.

Lemma bind_OutOfFuel {A B : Type} (m : M A) (k : A -> M B) (s : run) :
  m s = OutOfFuel -> (m ≫= k) s = OutOfFuel.
Proof. intros H. unfold mbind, M_bind, bindM. by rewrite H. Qed.

Lemma busy_wait_safe (w : world) (sleep_start d : float) :
  (forall k, stop_at w k = false) ->
  forall (fuel : nat) (s : run),
  busy_wait w fuel sleep_start (NFloat d) s = OutOfFuel
  \/ exists s',
       busy_wait w fuel sleep_start (NFloat d) s = Done tt s'
       /\ self s' = self s.
Proof.
  intros Hstop. induction fuel as [|fuel IH]; intros s; [by left|].
  cbn [busy_wait]. step.
  destruct (Num.lt _ _); [|right; by eexists].
  step. cbn [polls]. rewrite Hstop. step.
  cbn [lift Num.sub Num.to_float mbind result_bind bind].
  step. step. cbn [self ticks polls trace].
  match goal with
  | |- busy_wait _ _ _ _ ?s2 = _ \/ _ =>
      destruct (IH s2) as [Hout|(s' & Hrun & Hself)]
  end; [by left|].
  right. exists s'. by split.
Qed.

Lemma play_event_safe (w : world) (fuel : nat) (current_loop : Z)
  (max_loops : option Z) (start_time : float) (i : Z) (e : InputEvent.t)
  (t prev : float) (s : run) :
  (forall k, stop_at w k = false) ->
  loop_mode (self s) <> DURATION ->
  InputEvent.timestamp e = VFloat t ->
  PrimFloat.ltb 0 (speed_multiplier (self s)) = true ->
  play_event w fuel current_loop max_loops start_time i e (NFloat prev) s
  = OutOfFuel
  \/ exists s',
       play_event w fuel current_loop max_loops start_time i e (NFloat prev) s
       = Done (Continue, NFloat t) s'
       /\ settings (self s') = settings (self s).
Proof.
  intros Hstop Hmode Hts Hspeed.
  assert (Htail : forall s0 : run,
            self s0 = self s ->
            exists s',
              (_ ← try_pass
                     (_ ← _execute_event w e;
                      played ← read _events_played;
                      update (set_events_played (played + 1)));
               progress ← read _on_progress_callback;
               _ ← match (progress : option callback) with
                   | Some _ =>
                       let total_loops :=
                         match max_loops with Some n => n | None => -1 end in
                       emit (Progress (current_loop + 1) total_loops (i + 1))
                   | None => ret tt
                   end;
               ret (Continue, NFloat t)) s0 = Done (Continue, NFloat t) s'
              /\ settings (self s') = settings (self s)).
  { intros s0 Hs0.
    destruct (execute_step w e s0) as (s1 & Hrun & Hset & _).
    erewrite bind_Done by exact Hrun. cbv beta. step.
    destruct (_on_progress_callback (self s1)); eexists;
      (split; [cbv zeta; step; reflexivity|]); cbn [self];
      by rewrite Hset, Hs0. }
  unfold play_event. step. cbn [polls]. rewrite Hstop.
  erewrite bind_Done by (apply duration_over_other_modes; exact Hmode).
  cbv beta. rewrite Hts. cbn [Num.as_number]. step. step. cbn [self].
  rewrite delay_before_floats by exact Hspeed. step.
  destruct (Num.gt0 _).
  - destruct (busy_wait_safe w (time_at w (ticks s))
                ((t - prev) / speed_multiplier (self s)) Hstop fuel
                (Run (self s) (S (ticks s)) (S (polls s))
                   (trace s
                    ++ [Wait (NFloat ((t - prev)
                                      / speed_multiplier (self s)))])))
      as [Hout|(s1 & Hrun1 & Hself1)].
    + left. apply bind_OutOfFuel. step. step. cbn [self ticks polls trace].
      by apply bind_OutOfFuel.
    + right. cbn [self] in Hself1.
      destruct (Htail (Run (self s1) (ticks s1) (S (polls s1)) (trace s1))
                  Hself1) as (s2 & Hrun2 & Hset2).
      exists s2. split; [|exact Hset2].
      erewrite (bind_Done (_ ≫= _)).
      2:{ step. step. cbn [self ticks polls trace].
          erewrite bind_Done by exact Hrun1. cbv beta.
          unfold is_set. rewrite Hstop. reflexivity. }
      cbv beta. exact Hrun2.
  - right. step.
    apply (Htail (Run (self s) (ticks s) (S (polls s)) (trace s)) eq_refl).
Qed.

Lemma for_events_safe (w : world) (fuel : nat) (current_loop : Z)
  (max_loops : option Z) (start_time : float) :
  (forall k, stop_at w k = false) ->
  forall (events : list InputEvent.t) (i : Z) (prev : float) (s : run),
  loop_mode (self s) <> DURATION ->
  PrimFloat.ltb 0 (speed_multiplier (self s)) = true ->
  forallb float_timestamp events = true ->
  for_events w fuel current_loop max_loops start_time i events (NFloat prev) s
  = OutOfFuel
  \/ exists s',
       for_events w fuel current_loop max_loops start_time i events
         (NFloat prev) s = Done tt s'
       /\ settings (self s') = settings (self s).
Proof.
  intros Hstop.
  induction events as [|e events IH]; intros i prev s Hmode Hspeed Hfloat.
  - right. by exists s.
  - cbn [forallb] in Hfloat. apply andb_true_iff in Hfloat as [Hts Hfloat].
    unfold float_timestamp in Hts.
    destruct (InputEvent.timestamp e) as [| | |t| | |] eqn:Et;
      try discriminate.
    cbn [for_events].
    destruct (play_event_safe w fuel current_loop max_loops start_time i e t
                prev s Hstop Hmode Et Hspeed) as [Hout|(s1 & Hrun1 & Hset1)].
    + left. by apply bind_OutOfFuel.
    + erewrite bind_Done by exact Hrun1. cbv beta iota.
      assert (Hs : loop_mode (self s1) = loop_mode (self s)
                   /\ speed_multiplier (self s1) = speed_multiplier (self s)).
      { unfold settings in Hset1. by injection Hset1. }
      destruct Hs as [Hs1 Hs2].
      destruct (IH (i + 1) t s1) as [Hout|(s2 & Hrun2 & Hset2)];
        [by rewrite Hs1 | by rewrite Hs2 | done | by left |].
      right. exists s2. split; [done|]. by rewrite Hset2.
Qed.

Lemma while_loops_endless (w : world) (start_time : float)
  (events : list InputEvent.t) :
  (forall k, stop_at w k = false) ->
  forallb float_timestamp events = true ->
  forall (fuel : nat) (current_loop : Z) (s : run),
  loop_mode (self s) <> DURATION ->
  PrimFloat.ltb 0 (speed_multiplier (self s)) = true ->
  while_loops w fuel None start_time events current_loop s = OutOfFuel.
Proof.
  intros Hstop Hfloat.
  induction fuel as [|fuel IH]; intros current_loop s Hmode Hspeed;
    [reflexivity|].
  cbn [while_loops below]. step. step. cbn [polls]. rewrite Hstop.
  erewrite bind_Done by (apply duration_over_other_modes; exact Hmode).
  cbv beta.
  destruct (for_events_safe w fuel current_loop None start_time Hstop events
              0 0%float
              (Run (set_current_loop (current_loop + 1) (self s)) (ticks s)
                 (S (polls s)) (trace s)) Hmode Hspeed Hfloat)
    as [Hout|(s1 & Hrun1 & Hset1)].
  - by apply bind_OutOfFuel.
  - erewrite bind_Done by exact Hrun1. cbv beta.
    step. cbn [polls]. rewrite Hstop. cbn [negb]. step.
    assert (Hs : loop_mode (self s1) = loop_mode (self s)
                 /\ speed_multiplier (self s1) = speed_multiplier (self s)).
    { unfold settings in Hset1. by injection Hset1. }
    destruct Hs as [Hs1 Hs2].
    apply IH; cbn; [by rewrite Hs1 | by rewrite Hs2].
Qed.

End Endless.

(** X24: in mode [INFINITE] the replay thread never returns on its own.
    With the stop flag never set, a positive speed and a session of
    events with float timestamps, no amount of fuel lets it finish,
    whatever the clock and the controllers do: only the flag ends it. *)
Theorem infinite_replay_never_ends (w : Player.world) (fuel : nat)
  (p : Player.t) (session : RecordingSession.t) :
  (forall k, Player.stop_at w k = false) ->
  Player.loop_mode p = Player.INFINITE ->
  Player._session p = Some session ->
  RecordingSession.events session <> [] ->
  forallb Player.float_timestamp (RecordingSession.events session) = true ->
  PrimFloat.ltb 0 (Player.speed_multiplier p) = true ->
  Player.replay w fuel p = Player.OutOfFuel.
Proof.
  intros Hstop Hmode Hsession Hevents Hfloat Hspeed.
  rewrite (playback_loop_enters w fuel p session None Hsession Hevents)
    by (by rewrite Hmode).
  apply bind_OutOfFuel. apply while_loops_endless; try done.
  cbn. by rewrite Hmode.
Qed.

Lemma infinite_replay_example :
  let w := {| Player.time_at := fun _ => infinity;
              Player.stop_at := fun _ => false;
              Player.controller := fun _ => None;
              Player.Key_member := fun _ => false |} in
  let session :=
    RecordingSession.mk
      [ InputEvent.mk (VFloat 0.5) EventType.KEY_PRESS VNone VNone VNone
          (VBool true) (VStr "a") VNone VNone ]
      (VStr "2024-01-01T00:00:00") (VBool true) (VBool true) (VStr "1.0.0")
      (VStr "demo") (VStr "") in
  let p := snd (Player.play (Some session)
                  (Player.set_loop_mode Player.INFINITE (NInt 1)
                     (Player.init None None))) in
  Player.replay w 1000 p = Player.OutOfFuel.
Proof.
  intros w session p.
  apply (infinite_replay_never_ends w 1000 p session); try reflexivity.
  discriminate.
Defined.

(** ** Sessions on disk *)





(** X26: a session that comes out of a recording has a float timestamp
    on every event, which is what the replay's arithmetic needs; so does
    the session read back from its dictionary. *)
Theorem recorded_timestamps_are_floats (stamp now : string) (t0 : float)
  (inputs : list (float * Listener.input)) (r : Recorder.t) :
  Recorder.is_recording r = false ->
  let session := fst (Listener.record stamp t0 inputs r) in
  forallb Player.float_timestamp (RecordingSession.events session) = true
  /\ exists loaded,
       RecordingSession.from_dict now (RecordingSession.to_dict session)
       = Ok loaded
       /\ forallb Player.float_timestamp (RecordingSession.events loaded)
          = true.
Proof.
  intros Hrec session.
  assert (Hfloat : forallb Player.float_timestamp
                     (RecordingSession.events session) = true).
  { destruct (start_running stamp t0 r Hrec) as (Hrun & _ & _ & _ & Hnil & _).
    destruct (record_running inputs _ Hrun)
      as (es & Hev & _ & Hts & _ & _ & Hon).
    subst session. unfold Listener.record, Recorder.stop. rewrite Hon.
    cbn [negb fst]. rewrite Hev, Hnil. cbn [app].
    clear Hev. revert Hts.
    generalize (List.filter
                  (Listener.enabled (Recorder.start stamp t0 r)) inputs).
    induction es as [|e es IH]; intros [|k kept] Hts; try discriminate;
      [reflexivity|].
    cbn in Hts. injection Hts as Hts Hrest. cbn [forallb].
    unfold Player.float_timestamp at 1. rewrite Hts. cbn [andb].
    by apply (IH kept). }
  split; [exact Hfloat|]. exists session. by rewrite session_round_trip.
Qed.

Lemma recorded_timestamps_example :
  forallb Player.float_timestamp
    (RecordingSession.events
       (fst (Listener.record "2024-01-01T00:00:00" 1
               [ (1.5%float, Listener.move 10 20) ]
               (Recorder.init "2024-01-01T00:00:00" true true None))))
  = true.
Proof.
  exact (proj1 (recorded_timestamps_are_floats "2024-01-01T00:00:00"
                  "2024-06-01T12:00:00" 1
                  [ (1.5%float, Listener.move 10 20) ]
                  (Recorder.init "2024-01-01T00:00:00" true true None)
                  eq_refl)).
Defined.



Section Expired.

Import Player.

Ltac step := erewrite bind_Done by reflexivity; cbv beta.

Lemma expired_run (w : world) (fuel : nat) (events : list InputEvent.t)
  (s0 : run) :
  stop_at w (polls s0) = false ->
  loop_mode (self s0) = DURATION ->
  Num.ge (NFloat (time_at w (ticks s0) - time_at w 0)) (loop_value (self s0))
  = true ->
  exists r,
    (_ ← while_loops w (S fuel) None (time_at w 0) events 0; finish) s0
    = Done tt r
    /\ trace r = (trace s0
                  ++ match _on_complete_callback (self s0) with
                     | Some _ => [Complete]
                     | None => []
                     end)%list
    /\ is_playing (self r) = false
    /\ _loops_completed (self r) = _loops_completed (self s0)
    /\ _events_played (self r) = _events_played (self s0).
Proof.
  intros Hstop Hmode Hover. cbn [while_loops below].
  erewrite (bind_Done (_ ≫= _)).
  2:{ step. step. cbn [polls]. rewrite Hstop.
      erewrite (bind_Done (duration_over _ _)).
      2:{ unfold duration_over. step. cbn [self set_current_loop loop_mode].
          rewrite Hmode. step. step.
          cbn [self ticks set_current_loop loop_value]. rewrite Hover.
          reflexivity. }
      reflexivity. }
  unfold finish. step. step. cbn.
  destruct (_on_complete_callback (self s0)); eexists;
    (split; [reflexivity|]); cbn; rewrite ?app_nil_r; auto.
Qed.

End Expired.

(** X28: a duration that is already over.  In mode [DURATION], when the
    first reading of the clock after the start already shows at least
    [loop_value] seconds elapsed (a duration of zero, say), the thread
    executes and waits for nothing: it ends normally, idle, with both
    counters at zero, its only action the completion callback. *)
Theorem expired_duration_plays_nothing (w : Player.world) (fuel : nat)
  (p : Player.t) (session : RecordingSession.t) :
  Player.stop_at w 0 = false ->
  Player.loop_mode p = Player.DURATION ->
  Player._session p = Some session ->
  RecordingSession.events session <> [] ->
  Num.ge (NFloat (Player.time_at w 1 - Player.time_at w 0))
    (Player.loop_value p) = true ->
  exists r,
    Player.replay w (S fuel) p = Player.Done tt r
    /\ Player.trace r = match Player._on_complete_callback p with
                        | Some _ => [Player.Complete]
                        | None => []
                        end
    /\ Player.is_playing (Player.self r) = false
    /\ Player._loops_completed (Player.self r) = 0
    /\ Player._events_played (Player.self r) = 0.
Proof.
  intros Hstop Hmode Hsession Hevents Hover.
  rewrite (playback_loop_enters w (S fuel) p session None Hsession Hevents)
    by (by rewrite Hmode).
  destruct (expired_run w fuel (RecordingSession.events session)
              (Player.Run
                 (Player.set_current_loop 1
                    (Player.set_events_played 0
                       (Player.set_loops_completed 0
                          (Player.set_start_time (Player.time_at w 0) p))))
                 1 0 []) Hstop Hmode Hover)
    as (r & Hrun & Htrace & Hidle & Hloops & Hplayed).
  exists r. rewrite Hrun, Htrace, Hidle, Hloops, Hplayed. by cbn.
Qed.

(** A duration of zero seconds on a clock that stands still *)
Lemma zero_duration_example :
  let w := {| Player.time_at := fun _ => 100%float;
              Player.stop_at := fun _ => false;
              Player.controller := fun _ => None;
              Player.Key_member := fun _ => false |} in
  let session :=
    RecordingSession.mk
      [ InputEvent.mk (VFloat 0) EventType.MOUSE_MOVE (VInt 100) (VInt 200)
          VNone VNone VNone VNone VNone ]
      (VStr "2024-01-01T00:00:00") (VBool true) (VBool true) (VStr "1.0.0")
      (VStr "demo") (VStr "") in
  let p := snd (Player.play (Some session)
                  (Player.set_loop_mode Player.DURATION (NInt 0)
                     (Player.init None None))) in
  exists r,
    Player.replay w 1 p = Player.Done tt r
    /\ Player.trace r = []
    /\ Player.is_playing (Player.self r) = false
    /\ Player._loops_completed (Player.self r) = 0
    /\ Player._events_played (Player.self r) = 0.
Proof.
  intros w session p.
  apply (expired_duration_plays_nothing w 0 p session); try reflexivity.
  discriminate.
Defined.

(** ** What [register_hotkey] accepts *)

Section Validation.

Import HotkeyManager.




End Validation.

